(** * Field-mapping differ of compare_requests.py

    A shallow embedding of the case normaliser [camel_to_snake] and of the
    three module-level loops of [compare_requests.py] that compare the two
    request dictionaries, with the properties of the specification proved
    about them.

    Python strings are sequences of Unicode code points.  The script calls
    two built-in [str] methods, [isupper] and [lower]; their tables belong to
    the interpreter, not to the script, so the embedding takes both methods
    as parameters.  What the interpreter does on ASCII text is written out
    ([ascii_isupper], [ascii_lower]) and a property that needs it assumes
    that the parameters agree with it there ([ascii_rows]). *)

From Stdlib Require Import Ascii String DecimalString.
From Stdlib Require Import List Bool Arith NArith ZArith Lia Permutation Sorted.
Import ListNotations.

(** ** Strings *)

Abbreviation codepoint := N.
Abbreviation pystr := (list codepoint).

(** A string literal of the script, as its code points. *)
Definition py (s : string) : pystr := map N_of_ascii (list_ascii_of_string s).

Definition pystr_eqb (a b : pystr) : bool :=
  if list_eq_dec N.eq_dec a b then true else false.

Definition underscore : codepoint := 95%N.

(** ['sep'.join(parts)] with the empty separator of line 42. *)
Definition join (parts : list pystr) : pystr := concat parts.

(** [enumerate(name)]: the characters paired with their indices from 0. *)
Definition enumerate (name : pystr) : list (nat * codepoint) :=
  combine (seq 0 (length name)) name.

(** ** Values and dictionaries *)

(** The values of the request dictionaries are strings and integers. *)
Inductive value : Type :=
| VStr (s : pystr)
| VInt (z : Z).

(** What [str(v)] returns: a string is itself, an integer is its decimal
    numeral.  That [str] of a very long integer raises instead is the
    matter of [str_limited] below. *)
Definition py_str (v : value) : pystr :=
  match v with
  | VStr s => s
  | VInt z => py (NilZero.string_of_int (Z.to_int z))
  end.

(** What an expression of the script evaluates to: a value, or the
    [KeyError] that subscripting a dictionary raises on an absent key. *)
Inductive result (A : Type) : Type :=
| Ok (a : A)
| KeyError (key : pystr).
Arguments Ok {A} a.
Arguments KeyError {A} key.

Definition bind {A B : Type} (m : result A) (k : A -> result B) : result B :=
  match m with
  | Ok a => k a
  | KeyError key => KeyError key
  end.

Notation "x <- m ;; k" := (bind m (fun x => k))
  (at level 61, m at next level, right associativity).

(** A [for] loop whose body may raise, threading the list it appends to. *)
Fixpoint for_each {A S : Type} (body : S -> A -> result S) (xs : list A)
  (acc : S) : result S :=
  match xs with
  | [] => Ok acc
  | x :: rest => acc' <- body acc x ;; for_each body rest acc'
  end.

(** A dictionary keeps its items in insertion order. *)
Definition dict := list (pystr * value).

Definition keys (d : dict) : list pystr := map fst d.

(** [k in d] *)
Definition contains (k : pystr) (d : dict) : bool :=
  existsb (pystr_eqb k) (keys d).

(** [d[k]] *)
Fixpoint getitem (d : dict) (k : pystr) : result value :=
  match d with
  | [] => KeyError k
  | (k', v) :: rest => if pystr_eqb k k' then Ok v else getitem rest k
  end.

(** [d[k] = v]: an existing key keeps its place and takes the new value. *)
Fixpoint setitem (d : dict) (k : pystr) (v : value) : dict :=
  match d with
  | [] => [(k, v)]
  | (k', v') :: rest =>
      if pystr_eqb k k' then (k', v) :: rest else (k', v') :: setitem rest k v
  end.

(** [set(xs)], used only for membership tests. *)
Abbreviation pyset := (list pystr).

Fixpoint set_of (xs : list pystr) : pyset :=
  match xs with
  | [] => []
  | x :: rest => if existsb (pystr_eqb x) rest then set_of rest else x :: set_of rest
  end.

Definition set_contains (k : pystr) (s : pyset) : bool := existsb (pystr_eqb k) s.

(** [sorted(xs)] on strings: code-point lexicographic order. *)
Fixpoint pystr_leb (a b : pystr) : bool :=
  match a, b with
  | [], _ => true
  | _ :: _, [] => false
  | x :: a', y :: b' =>
      if (x <? y)%N then true else if (y <? x)%N then false else pystr_leb a' b'
  end.

Fixpoint insert_sorted (x : pystr) (xs : list pystr) : list pystr :=
  match xs with
  | [] => [x]
  | y :: rest => if pystr_leb x y then x :: y :: rest else y :: insert_sorted x rest
  end.

Definition sorted (xs : list pystr) : list pystr :=
  fold_right insert_sorted [] xs.

(** How the comparison files a key of the first dictionary. *)
Inductive outcome : Type :=
| Unmatched
| Mismatched (fv sv : value)
| Matched.

(** ** The script, over the two string methods *)

Section Script.

(** [s.isupper()] and [s.lower()] of the interpreter. *)
Variable isupper : pystr -> bool.
Variable lower : pystr -> pystr.

(** *** Case normaliser (lines 33-42) *)

(** One iteration of the loop over [enumerate(name)]; [result] is the list
    of one-character (or lower-cased) pieces that line 42 joins. *)
Definition camel_step (result : list pystr) (ic : nat * codepoint) : list pystr :=
  let (i, c) := ic in
  if isupper [c] && (0 <? i) then
    (result ++ [[underscore]]) ++ [lower [c]]
  else
    result ++ [lower [c]].

Definition camel_to_snake (name : pystr) : pystr :=
  join (fold_left camel_step (enumerate name) []).

(** The same conversion in the words of the specification: an underscore
    is put before every upper-case character that is not at index 0, and
    every character is lower-cased.  [snake_from i s] treats [s] as the
    part of the name that starts at index [i]. *)
Fixpoint snake_from (i : nat) (s : pystr) : pystr :=
  match s with
  | [] => []
  | c :: rest =>
      (if isupper [c] then
         match i with O => [] | S _ => [underscore] end
       else [])
      ++ lower [c] ++ snake_from (S i) rest
  end.

Definition normalize_spec (s : pystr) : pystr := snake_from 0 s.

(** [name] contains an upper-case character. *)
Definition has_upper (name : pystr) : bool :=
  existsb (fun c => isupper [c]) name.

Definition count_upper (name : pystr) : nat :=
  List.length (filter (fun c => isupper [c]) name).

(** No character is upper-case and [lower] leaves every character alone. *)
Definition unchanged_by_lower (name : pystr) : bool :=
  forallb (fun c => negb (isupper [c]) && pystr_eqb (lower [c]) [c]) name.

(** The lower-case form of every character of [name] is made of
    characters that are not upper-case and that [lower] leaves alone. *)
Definition lower_settles (name : pystr) : bool :=
  forallb (fun c => unchanged_by_lower (lower [c])) name.

(** A camelCase identifier: runs of characters that are not upper-case,
    separated by single upper-case letters, the first run first. *)
Fixpoint single_uppers (name : pystr) : bool :=
  match name with
  | [] => true
  | c :: rest =>
      match rest with
      | [] => negb (isupper [c])
      | d :: _ => negb (isupper [c] && isupper [d]) && single_uppers rest
      end
  end.

Definition camel_identifier (name : pystr) : bool :=
  match name with
  | [] => false
  | c :: _ => negb (isupper [c]) && single_uppers name
  end.

(** *** Comparison loops *)

(** Lines 59: [{k: camel_to_snake(k) for k in first.keys()}]. *)
Definition second_to_camel (first : dict) : dict :=
  fold_left (fun d k => setitem d k (VStr (camel_to_snake k))) (keys first) [].

(** Lines 61-65: one printed row per key of [first], in sorted order:
    the mark (true for the tick, false for the cross), the key and its
    snake_case form. *)
Definition field_mapping (first second : dict) : list (bool * pystr * pystr) :=
  let second_keys := set_of (keys second) in
  map (fun fk =>
         let snake := camel_to_snake fk in
         let has_in_second := set_contains snake second_keys in
         (has_in_second, fk, snake))
      (sorted (keys first)).

(** The keys of [first] that the report marks with a cross. *)
Definition unmatched (first second : dict) : list pystr :=
  map (fun row => snd (fst row))
      (filter (fun row => negb (fst (fst row))) (field_mapping first second)).

(** Lines 69-77: the [differences] list; a record is
    [(first_key, snake_key, first[first_key], second[snake_key])]. *)
Definition difference : Type := pystr * pystr * value * value.

Definition difference_key (d : difference) : pystr :=
  let '(fk, _, _, _) := d in fk.

Definition differences_body (first second : dict)
  (differences : list difference) (first_key : pystr) : result (list difference) :=
  let snake_key := camel_to_snake first_key in
  if contains snake_key second then
    a <- getitem first first_key ;;
    let first_val := lower (py_str a) in
    b <- getitem second snake_key ;;
    let second_val := lower (py_str b) in
    if negb (pystr_eqb first_val second_val) then
      fv <- getitem first first_key ;;
      sv <- getitem second snake_key ;;
      Ok (differences ++ [(first_key, snake_key, fv, sv)])
    else Ok differences
  else Ok differences.

Definition differences (first second : dict) : result (list difference) :=
  for_each (differences_body first second) (keys first) [].

(** Lines 107-114: the [same_fields] list. *)
Definition same_fields_body (first second : dict)
  (same_fields : list pystr) (first_key : pystr) : result (list pystr) :=
  let snake_key := camel_to_snake first_key in
  if contains snake_key second then
    a <- getitem first first_key ;;
    let first_val := lower (py_str a) in
    b <- getitem second snake_key ;;
    let second_val := lower (py_str b) in
    if pystr_eqb first_val second_val then
      Ok (same_fields ++ [first_key])
    else Ok same_fields
  else Ok same_fields.

Definition same_fields (first second : dict) : result (list pystr) :=
  for_each (same_fields_body first second) (keys first) [].

(** *** The outcome of one key

    What the three loops do with one key of [first], read off their
    bodies: no snake_case counterpart in [second]; counterpart with a
    different lower-cased string form (the two raw values are kept); or
    counterpart with the same one. *)
Definition classify (first second : dict) (k : pystr) : outcome :=
  let snake := camel_to_snake k in
  if contains snake second then
    match getitem first k, getitem second snake with
    | Ok a, Ok b =>
        if pystr_eqb (lower (py_str a)) (lower (py_str b)) then Matched
        else Mismatched a b
    | _, _ => Unmatched
    end
  else Unmatched.

Definition is_unmatched (second : dict) (k : pystr) : bool :=
  negb (contains (camel_to_snake k) second).

Definition is_mismatched (first second : dict) (k : pystr) : bool :=
  match classify first second k with Mismatched _ _ => true | _ => false end.

Definition is_matched (first second : dict) (k : pystr) : bool :=
  match classify first second k with Matched => true | _ => false end.

Definition difference_of (first second : dict) (k : pystr) : list difference :=
  match classify first second k with
  | Mismatched a b => [(k, camel_to_snake k, a, b)]
  | _ => []
  end.

End Script.

(** ** The dictionaries of the script and of the specification *)

Definition str (s : string) : value := VStr (py s).

(** Lines 4-15. *)
Definition first : dict :=
  [ (py "contractAddress", str "");
    (py "currencyAddress", str "0x55d398326f99059fF775485246999027B3197955");
    (py "expiration", str "0");
    (py "feeRateBps", str "0");
    (py "maker", str "0xc99853ad4B116952e83640D5bb532c29698D119B");
    (py "makerAmount", str "6000000000000000000");
    (py "nonce", str "0");
    (py "orderExpTime", str "0");
    (py "price", str "0.01");
    (py "safeRate", str "0");
    (py "salt", str "1399621994");
    (py "side", str "0");
    (py "sign", str "0x828de9aa041a4729908e2bd8fa6a831c2cd001196aab59db306292453173345c3ebc51d774395b0f7340baf9147d6c1283c844309cab190463056b2c860169901b");
    (py "signature", str "0x828de9aa041a4729908e2bd8fa6a831c2cd001196aab59db306292453173345c3ebc51d774395b0f7340baf9147d6c1283c844309cab190463056b2c860169901b");
    (py "signatureType", str "2");
    (py "signer", str "0x64C891124df965F53546834c3777da38f759B82E");
    (py "taker", str "0x0000000000000000000000000000000000000000");
    (py "takerAmount", str "600000000000000000000");
    (py "timestamp", VInt 1762896320);
    (py "tokenId", str "37029929800985239120461077343514542950048857363074104543068606430978923968964");
    (py "topicId", VInt 1708);
    (py "tradingMethod", VInt 2) ].

(** Lines 17-31. *)
Definition second : dict :=
  [ (py "contract_address", str "");
    (py "salt", str "8651874791422680");
    (py "topic_id", VInt 1708);
    (py "maker", str "0x64C891124df965F53546834c3777da38f759B82E");
    (py "signer", str "0x64C891124df965F53546834c3777da38f759B82E");
    (py "taker", str "0x0000000000000000000000000000000000000000");
    (py "token_id", str "37029929800985239120461077343514542950048857363074104543068606430978923968964");
    (py "maker_amount", str "6000000000000000000");
    (py "taker_amount", str "600000000000000000000");
    (py "expiration", str "0");
    (py "nonce", str "0");
    (py "fee_rate_bps", str "0");
    (py "side", str "0");
    (py "signature_type", str "2");
    (py "signature", str "0xa7b9a471d3c660795f4aa059c225022e9a35d58a293243ff2f1457b4fad25a5323e4fd1b157511a5386eccece2c7e8fb13b9c925215ff0ea4306c88181803bb81c");
    (py "sign", str "0xa7b9a471d3c660795f4aa059c225022e9a35d58a293243ff2f1457b4fad25a5323e4fd1b157511a5386eccece2c7e8fb13b9c925215ff0ea4306c88181803bb81c");
    (py "currency_address", str "0x55d398326f99059ff775485246999027b3197955");
    (py "price", str "0.01");
    (py "trading_method", VInt 2);
    (py "timestamp", VInt 1762896444);
    (py "safe_rate", str "0");
    (py "order_exp_time", str "0") ].

(** The end-to-end examples of the specification. *)
Definition example_A : dict := [(py "maker", str "0xABC"); (py "price", str "0.01")].
Definition example_B : dict := [(py "maker", str "0xabc"); (py "price", str "0.02")].
Definition absent_A : dict := [(py "feeRateBps", str "0")].
Definition absent_B : dict := [(py "other_field", str "0")].

(** Two keys of one dictionary with the same snake_case form. *)
Definition clash_A : dict := [(py "tokenId", str "1"); (py "token_id", str "1")].
Definition clash_B : dict := [(py "token_id", str "1")].

(** Two dictionaries with the keys that lines 86-87 subscript. *)
Definition address_A : dict := [(py "currencyAddress", str "0x55d3fF")].
Definition address_B : dict := [(py "currency_address", str "0x55d3ff")].

(** A key that mixes the two conventions, and the key it was meant to be. *)
Definition mixed_A : dict := [(py "foo_Bar", str "1")].
Definition camel_A : dict := [(py "fooBar", str "1")].
Definition snake_B : dict := [(py "foo_bar", str "1")].

(** ** The two string methods on ASCII text *)

Definition is_ascii (s : pystr) : bool := forallb (fun c => c <? 128)%N s.

Definition ascii_upper (c : codepoint) : bool := ((65 <=? c) && (c <=? 90))%N.
Definition ascii_small (c : codepoint) : bool := ((97 <=? c) && (c <=? 122))%N.

(** [s.isupper()]: some cased character, and no cased character that is
    not upper-case. *)
Definition ascii_isupper (s : pystr) : bool :=
  existsb ascii_upper s && negb (existsb ascii_small s).

(** [s.lower()]: [A]..[Z] move to [a]..[z], everything else stays. *)
Definition ascii_lower (s : pystr) : pystr :=
  map (fun c => if ascii_upper c then (c + 32)%N else c) s.

(** The methods the script is run with behave on ASCII strings as the
    interpreter does. *)
Definition ascii_rows (isupper : pystr -> bool) (lower : pystr -> pystr) : Prop :=
  forall s, is_ascii s = true ->
            isupper s = ascii_isupper s /\ lower s = ascii_lower s.

(** Every key and every value of the dictionary prints as ASCII text. *)
Definition ascii_dict (d : dict) : bool :=
  forallb (fun kv => is_ascii (fst kv) && is_ascii (py_str (snd kv))) d.

(** ** Some rows of the interpreter's tables beyond ASCII

    From the Unicode character database, as CPython ships it:
    - U+0130 LATIN CAPITAL LETTER I WITH DOT ABOVE, category Lu, whose full
      lower-case mapping is the two code points U+0069 U+0307;
    - U+01C5 LATIN CAPITAL LETTER D WITH SMALL LETTER Z WITH CARON, category
      Lt (title-case, so [isupper] is false), lower-case mapping U+01C6;
    - U+2102 DOUBLE-STRUCK CAPITAL C, category Lu, with no lower-case mapping.
    [table_isupper] and [table_lower] are the two methods on strings made of
    ASCII characters and of these code points; no statement below applies
    them to anything else. *)

Inductive casing : Type := Uncased | UpperCase | LowerCase | TitleCase.

Definition casing_of (c : codepoint) : casing :=
  if ascii_upper c then UpperCase
  else if ascii_small c then LowerCase
  else if (c =? 304)%N then UpperCase        (* U+0130 *)
  else if (c =? 453)%N then TitleCase        (* U+01C5 *)
  else if (c =? 454)%N then LowerCase        (* U+01C6 *)
  else if (c =? 8450)%N then UpperCase       (* U+2102 *)
  else Uncased.

Definition lower_of (c : codepoint) : pystr :=
  if ascii_upper c then [(c + 32)%N]
  else if (c =? 304)%N then [105%N; 775%N]   (* U+0069 U+0307 *)
  else if (c =? 453)%N then [454%N]
  else [c].

Definition table_isupper (s : pystr) : bool :=
  existsb (fun c => match casing_of c with UpperCase => true | _ => false end) s
  && negb (existsb (fun c => match casing_of c with
                             | LowerCase | TitleCase => true
                             | _ => false
                             end) s).

Definition table_lower (s : pystr) : pystr := flat_map lower_of s.

(** ** The rest of compare_requests.py *)

(** Ascending code-point order: every string is at most every later one. *)
Definition ascending (l : list pystr) : Prop :=
  StronglySorted (fun a b => pystr_leb a b = true) l.

(** ** Strings: slices and substring tests *)

(** [s[:n]], on a string or a list. *)
Definition slice_to {X : Type} (n : nat) (s : list X) : list X := firstn n s.

(** [s[-n:]] for a positive [n]: the last [n] items, or all of [s] when it
    is shorter. *)
Definition slice_last {X : Type} (n : nat) (s : list X) : list X :=
  skipn (List.length s - n) s.

Fixpoint starts_with (needle s : pystr) : bool :=
  match needle, s with
  | [], _ => true
  | _ :: _, [] => false
  | x :: needle', y :: s' => (x =? y)%N && starts_with needle' s'
  end.

(** [needle in s] on strings. *)
Fixpoint has_substring (needle s : pystr) : bool :=
  starts_with needle s
  || match s with
     | [] => false
     | _ :: s' => has_substring needle s'
     end.

(** [sep.join(parts)] *)
Fixpoint join_with (sep : pystr) (parts : list pystr) : pystr :=
  match parts with
  | [] => []
  | p :: rest =>
      match rest with
      | [] => p
      | _ :: _ => p ++ sep ++ join_with sep rest
      end
  end.

(** Lines 116-118 of compare_requests.py: the line that names the matched
    fields, and the line that counts them when there are more than ten.
    The code points are those of the script's own text. *)
Definition same_fields_header : pystr :=
  py "   " ++ [20197; 19979; 23383; 27573; 20540; 30456; 21516]%N ++ py ": ".

Definition same_fields_lines (same_fields : list pystr) : list pystr :=
  (same_fields_header ++ join_with (py ", ") (slice_to 10 same_fields))
  :: (if 10 <? List.length same_fields then
        [py "   ... " ++ [31561; 20849]%N
         ++ py_str (VInt (Z.of_nat (List.length same_fields)))
         ++ [20010; 23383; 27573]%N]
      else []).

(** ** The script run by an interpreter

    Beside the [KeyError] of a subscript, two things can stop the script.
    [str] of an integer (and an f-string field holding one) raises
    [ValueError] when the integer has more decimal digits than
    [sys.get_int_max_str_digits()], written [max_digits] below: 4300 unless
    reconfigured, 0 for no limit.  And [print] raises [UnicodeEncodeError]
    when the encoder of [sys.stdout] does not accept the text, written
    [printable] below. *)

Inductive exception : Type :=
| ExcKeyError (key : pystr)
| ExcValueError
| ExcUnicodeEncodeError.

Inductive exec (A : Type) : Type :=
| Done (a : A)
| Raise (e : exception).
Arguments Done {A} a.
Arguments Raise {A} e.

Definition exec_bind {A B : Type} (m : exec A) (k : A -> exec B) : exec B :=
  match m with
  | Done a => k a
  | Raise e => Raise e
  end.

Notation "x <~ m ;; k" := (exec_bind m (fun x => k))
  (at level 61, m at next level, right associativity).

Fixpoint for_each_exec {A S : Type} (body : S -> A -> exec S) (xs : list A)
  (acc : S) : exec S :=
  match xs with
  | [] => Done acc
  | x :: rest => acc' <~ body acc x ;; for_each_exec body rest acc'
  end.

(** [d[k]] *)
Definition subscript (d : dict) (k : pystr) : exec value :=
  match getitem d k with
  | Ok v => Done v
  | KeyError key => Raise (ExcKeyError key)
  end.

(** The number of decimal digits of an integer, its sign apart. *)
Definition int_digits (z : Z) : nat := List.length (py_str (VInt (Z.abs z))).

(** [str(v)], and the value of an f-string field [{v}]. *)
Definition str_limited (max_digits : nat) (v : value) : exec pystr :=
  match v with
  | VStr s => Done s
  | VInt z =>
      if (0 <? max_digits) && (max_digits <? int_digits z)
      then Raise ExcValueError
      else Done (py_str v)
  end.

(** No integer of the dictionary is too long for [str]. *)
Definition within_digit_limit (max_digits : nat) (d : dict) : bool :=
  forallb (fun kv => match snd kv with
                     | VStr _ => true
                     | VInt z => negb ((0 <? max_digits) && (max_digits <? int_digits z))
                     end) d.

(** A statement that prints: from what has been printed so far to its
    value and what has been printed after it, or an exception. *)
Definition prog (A : Type) : Type := list pystr -> exec (A * list pystr).

Definition ret {A : Type} (a : A) : prog A := fun out => Done (a, out).

Definition prog_bind {A B : Type} (m : prog A) (k : A -> prog B) : prog B :=
  fun out =>
    match m out with
    | Done (a, out') => k a out'
    | Raise e => Raise e
    end.

Definition lift {A : Type} (m : exec A) : prog A :=
  fun out =>
    match m with
    | Done a => Done (a, out)
    | Raise e => Raise e
    end.

Notation "x <-- m ;; k" := (prog_bind m (fun x => k))
  (at level 61, m at next level, right associativity).
Notation "m ;;; k" := (prog_bind m (fun _ => k))
  (at level 61, right associativity).

Fixpoint for_prog {A : Type} (body : A -> prog unit) (xs : list A) : prog unit :=
  match xs with
  | [] => ret tt
  | x :: rest => body x ;;; for_prog body rest
  end.

(** The texts the script prints. *)

(** Lines 44, 46, 91, 93: ["=" * 80]. *)
Definition banner : pystr := repeat 61%N 80.

(** Line 45, by code point. *)
Definition text_45 : pystr :=
  [20851; 38190; 24046; 24322; 20998; 26512]%N.

(** Line 49, by code point. *)
Definition text_49 : pystr :=
  [10; 49; 46; 32; 12304; 21629; 21517; 39118; 26684; 24046; 24322; 12305]%N.

(** Line 50, by code point. *)
Definition text_50 : pystr :=
  [32; 32; 32; 31532; 19968; 20010; 35831; 27714; 58; 32; 99; 97; 109;
   101; 108; 67; 97; 115; 101; 32; 40; 99; 111; 110; 116; 114; 97; 99;
   116; 65; 100; 100; 114; 101; 115; 115; 44; 32; 99; 117; 114; 114; 101;
   110; 99; 121; 65; 100; 100; 114; 101; 115; 115; 44; 32; 109; 97; 107;
   101; 114; 65; 109; 111; 117; 110; 116; 46; 46; 46; 41]%N.

(** Line 51, by code point. *)
Definition text_51 : pystr :=
  [32; 32; 32; 31532; 20108; 20010; 35831; 27714; 58; 32; 115; 110; 97;
   107; 101; 95; 99; 97; 115; 101; 32; 40; 99; 111; 110; 116; 114; 97; 99;
   116; 95; 97; 100; 100; 114; 101; 115; 115; 44; 32; 99; 117; 114; 114;
   101; 110; 99; 121; 95; 97; 100; 100; 114; 101; 115; 115; 44; 32; 109;
   97; 107; 101; 114; 95; 97; 109; 111; 117; 110; 116; 46; 46; 46; 41]%N.

(** Line 52, by code point. *)
Definition text_52 : pystr :=
  [32; 32; 32; 9888; 65039; 32; 32; 65; 80; 73; 21487; 33021; 21482;
   25509; 21463; 99; 97; 109; 101; 108; 67; 97; 115; 101; 26684; 24335;
   30340; 23383; 27573; 21517]%N.

(** Line 55, by code point. *)
Definition text_55 : pystr :=
  [10; 50; 46; 32; 12304; 23383; 27573; 21517; 26144; 23556; 23545; 29031;
   12305]%N.

(** Line 60, by code point. *)
Definition text_60 : pystr :=
  [32; 32; 32; 31532; 19968; 20010; 35831; 27714; 23383; 27573; 32; 45;
   62; 32; 115; 110; 97; 107; 101; 95; 99; 97; 115; 101; 31561; 25928; 58]%N.

(** Line 65. *)
Definition text_65_1 : pystr := py "   ".

(** Line 65. *)
Definition text_65_2 : pystr := py " ".

(** Line 65. *)
Definition text_65_3 : pystr := py " -> ".

(** Line 68, by code point. *)
Definition text_68 : pystr :=
  [10; 51; 46; 32; 12304; 23383; 27573; 20540; 24046; 24322; 12305]%N.

(** Line 80, by code point. *)
Definition text_80_1 : pystr :=
  [32; 32; 32; 8226; 32]%N.

(** Line 80. *)
Definition text_80_2 : pystr := py " / ".

(** Line 80. *)
Definition text_80_3 : pystr := py ":".

(** Line 81, by code point. *)
Definition text_81_1 : pystr :=
  [32; 32; 32; 32; 32; 31532; 19968; 20010; 58; 32]%N.

(** Line 82, by code point. *)
Definition text_82_1 : pystr :=
  [32; 32; 32; 32; 32; 31532; 20108; 20010; 58; 32]%N.

(** Line 85, by code point. *)
Definition text_85 : pystr :=
  [10; 52; 46; 32; 12304; 22320; 22336; 26684; 24335; 24046; 24322; 12305]%N.

(** Line 86, by code point. *)
Definition text_86_1 : pystr :=
  [32; 32; 32; 99; 117; 114; 114; 101; 110; 99; 121; 65; 100; 100; 114;
   101; 115; 115; 32; 40; 31532; 19968; 20010; 41; 58; 32]%N.

(** Line 87, by code point. *)
Definition text_87_1 : pystr :=
  [32; 32; 32; 99; 117; 114; 114; 101; 110; 99; 121; 95; 97; 100; 100;
   114; 101; 115; 115; 32; 40; 31532; 20108; 20010; 41; 58; 32]%N.

(** Line 88, by code point. *)
Definition text_88 : pystr :=
  [32; 32; 32; 9888; 65039; 32; 32; 27880; 24847; 22823; 23567; 20889; 58;
   32; 31532; 19968; 20010; 26377; 22823; 20889; 39; 70; 39; 65292; 31532;
   20108; 20010; 20840; 23567; 20889]%N.

(** Line 92, by code point. *)
Definition text_92 : pystr :=
  [38169; 35823; 21407; 22240; 20998; 26512; 58; 32; 99; 97; 110; 39; 116;
   32; 99; 111; 110; 118; 101; 114; 116; 32; 116; 111; 32; 100; 101; 99;
   105; 109; 97; 108]%N.

(** Line 94, by code point. *)
Definition text_94 : pystr :=
  [10; 26368; 21487; 33021; 30340; 21407; 22240; 65306; 10; 49; 46; 32;
   9888; 65039; 32; 32; 65; 80; 73; 21518; 31471; 26399; 26395; 32; 99;
   97; 109; 101; 108; 67; 97; 115; 101; 32; 23383; 27573; 21517; 65292;
   20294; 31532; 20108; 20010; 35831; 27714; 21457; 36865; 30340; 26159;
   32; 115; 110; 97; 107; 101; 95; 99; 97; 115; 101; 10; 50; 46; 32;
   24403; 23383; 27573; 21517; 19981; 21305; 37197; 26102; 65292; 21518;
   31471; 21487; 33021; 25910; 21040; 31354; 20540; 25110; 38169; 35823;
   23383; 27573; 65292; 23548; 33268; 32; 100; 101; 99; 105; 109; 97; 108;
   32; 36716; 25442; 22833; 36133; 10; 51; 46; 32; 22320; 22336; 26684;
   24335; 38382; 39064; 65306; 69; 73; 80; 45; 53; 53; 26657; 39564;
   21644; 22320; 22336; 26684; 24335; 35201; 27714; 29305; 23450; 30340;
   22823; 23567; 20889; 10; 10; 35299; 20915; 26041; 26696; 65306; 10;
   10003; 32; 20351; 29992; 32; 99; 97; 109; 101; 108; 67; 97; 115; 101;
   32; 23383; 27573; 21517; 65288; 19982; 31532; 19968; 20010; 35831;
   27714; 20445; 25345; 19968; 33268; 65289; 10; 10003; 32; 20445; 25345;
   22320; 22336; 30340; 27491; 30830; 22823; 23567; 20889; 26684; 24335;
   65288; 69; 73; 80; 45; 53; 53; 32; 99; 104; 101; 99; 107; 115; 117;
   109; 65289; 10; 10003; 32; 26816; 26597; 83; 68; 75; 26159; 21542;
   33258; 21160; 36716; 25442; 23383; 27573; 21517; 26684; 24335; 10]%N.

(** Line 106, by code point. *)
Definition text_106 : pystr :=
  [10; 53; 46; 32; 12304; 30456; 21516; 20540; 23383; 27573; 12305]%N.

(** Line 64: the tick and the cross. *)
Definition tick : pystr := [10003]%N.
Definition cross : pystr := [10007]%N.

(** What the script has computed when it ends. *)
Record report : Type := {
  report_second_to_camel : dict;
  report_differences : list difference;
  report_same_fields : list pystr
}.

Section Run.

Variable isupper : pystr -> bool.
Variable lower : pystr -> pystr.
Variable max_digits : nat.
Variable printable : pystr -> bool.

(** An encoder that accepts every code point but the surrogates, as UTF-8
    with the strict error handler does. *)
Definition utf8_strict (s : pystr) : bool :=
  forallb (fun c => negb ((55296 <=? c) && (c <=? 57343))%N) s.

(** [print(s)] *)
Definition print (s : pystr) : prog unit :=
  fun out =>
    if printable s then Done (tt, out ++ [s]) else Raise ExcUnicodeEncodeError.

(** Lines 71-77 with the exceptions of [str]. *)
Definition differences_body_checked (first second : dict)
  (differences : list difference) (first_key : pystr)
  : exec (list difference) :=
  let snake_key := camel_to_snake isupper lower first_key in
  if contains snake_key second then
    a <~ subscript first first_key ;;
    sa <~ str_limited max_digits a ;;
    let first_val := lower sa in
    b <~ subscript second snake_key ;;
    sb <~ str_limited max_digits b ;;
    let second_val := lower sb in
    if negb (pystr_eqb first_val second_val) then
      fv <~ subscript first first_key ;;
      sv <~ subscript second snake_key ;;
      Done (differences ++ [(first_key, snake_key, fv, sv)])
    else Done differences
  else Done differences.

Definition differences_checked (first second : dict)
  : exec (list difference) :=
  for_each_exec (differences_body_checked first second) (keys first) [].

(** Lines 108-114 with the exceptions of [str]. *)
Definition same_fields_body_checked (first second : dict)
  (same_fields : list pystr) (first_key : pystr) : exec (list pystr) :=
  let snake_key := camel_to_snake isupper lower first_key in
  if contains snake_key second then
    a <~ subscript first first_key ;;
    sa <~ str_limited max_digits a ;;
    let first_val := lower sa in
    b <~ subscript second snake_key ;;
    sb <~ str_limited max_digits b ;;
    let second_val := lower sb in
    if pystr_eqb first_val second_val then
      Done (same_fields ++ [first_key])
    else Done same_fields
  else Done same_fields.

Definition same_fields_checked (first second : dict) : exec (list pystr) :=
  for_each_exec (same_fields_body_checked first second) (keys first) [].

(** Lines 44-65: the headings and the field-mapping report. *)
Definition print_field_mapping (first second : dict) : prog dict :=
  print banner ;;;
  print text_45 ;;;
  print banner ;;;
  print text_49 ;;;
  print text_50 ;;;
  print text_51 ;;;
  print text_52 ;;;
  print text_55 ;;;
  let first_keys := set_of (keys first) in
  let second_keys := set_of (keys second) in
  let second_to_camel := second_to_camel isupper lower first in
  print text_60 ;;;
  for_prog (fun fk =>
              let snake := camel_to_snake isupper lower fk in
              let has_in_second := set_contains snake second_keys in
              let mark := if has_in_second then tick else cross in
              print (text_65_1 ++ mark ++ text_65_2 ++ fk ++ text_65_3 ++ snake))
           (sorted (keys first)) ;;;
  ret second_to_camel.

(** Lines 68-82: the differences and their listing. *)
Definition print_differences (first second : dict)
  : prog (list difference) :=
  print text_68 ;;;
  differences <-- lift (differences_checked first second) ;;
  for_prog (fun d : difference =>
              let '(fk, sk, fv, sv) := d in
              print (text_80_1 ++ fk ++ text_80_2 ++ sk ++ text_80_3) ;;;
              shown_fv <-- lift (str_limited max_digits fv) ;;
              print (text_81_1 ++ shown_fv) ;;;
              shown_sv <-- lift (str_limited max_digits sv) ;;
              print (text_82_1 ++ shown_sv))
           differences ;;;
  ret differences.

(** Lines 85-88: the two addresses, subscripted with fixed keys. *)
Definition print_addresses (first second : dict) : prog unit :=
  print text_85 ;;;
  a <-- lift (subscript first (py "currencyAddress")) ;;
  shown_a <-- lift (str_limited max_digits a) ;;
  print (text_86_1 ++ shown_a) ;;;
  b <-- lift (subscript second (py "currency_address")) ;;
  shown_b <-- lift (str_limited max_digits b) ;;
  print (text_87_1 ++ shown_b) ;;;
  print text_88.

(** Lines 91-104: the analysis text. *)
Definition print_analysis : prog unit :=
  print ([10%N] ++ banner) ;;;
  print text_92 ;;;
  print banner ;;;
  print text_94.

(** Lines 106-118: the matched fields and the closing lines. *)
Definition print_same_fields (first second : dict) : prog (list pystr) :=
  print text_106 ;;;
  same_fields <-- lift (same_fields_checked first second) ;;
  for_prog print (same_fields_lines same_fields) ;;;
  ret same_fields.

(** The script, top to bottom. *)
Definition script (first second : dict) : prog report :=
  table <-- print_field_mapping first second ;;
  differences <-- print_differences first second ;;
  print_addresses first second ;;;
  print_analysis ;;;
  same_fields <-- print_same_fields first second ;;
  ret {| report_second_to_camel := table;
         report_differences := differences;
         report_same_fields := same_fields |}.

End Run.

(** The process environment: [os.getenv(var)] is [None] or a string. *)
Definition environ : Type := pystr -> option pystr.

(** The environment after [os.environ[var] = value]. *)
Definition setenv (env : environ) (var value : pystr) : environ :=
  fun v => if pystr_eqb v var then Some value else env v.

(** Truth value of what [os.getenv] returns: a non-empty string. *)
Definition truthy (v : option pystr) : bool :=
  match v with
  | Some (_ :: _) => true
  | _ => false
  end.

(** ** test_sdk_advanced.py *)

Module TestSdkAdvanced.

(** Lines 16-22.  The counters only ever go up from 0. *)
Record TestResult : Type := {
  passed : nat;
  failed : nat;
  skipped : nat;
  results : list dict
}.

Definition init : TestResult :=
  {| passed := 0; failed := 0; skipped := 0; results := [] |}.

(** Lines 24-30 (the two prints that follow change nothing). *)
Definition add_pass (self : TestResult) (test_name details : pystr) : TestResult :=
  {| passed := passed self + 1;
     failed := failed self;
     skipped := skipped self;
     results := results self
                ++ [[(py "test", VStr test_name);
                     (py "status", str "PASS");
                     (py "details", VStr details)]] |}.

(** Lines 35-41. *)
Definition add_fail (self : TestResult) (test_name : pystr) (error : value) : TestResult :=
  {| passed := passed self;
     failed := failed self + 1;
     skipped := skipped self;
     results := results self
                ++ [[(py "test", VStr test_name);
                     (py "status", str "FAIL");
                     (py "error", VStr (py_str error))]] |}.

(** Lines 45-51. *)
Definition add_skip (self : TestResult) (test_name reason : pystr) : TestResult :=
  {| passed := passed self;
     failed := failed self;
     skipped := skipped self + 1;
     results := results self
                ++ [[(py "test", VStr test_name);
                     (py "status", str "SKIP");
                     (py "reason", VStr reason)]] |}.

(** Lines 54-64: the total of line 55 and the value returned at line 64;
    the printed summary in between (with its floating-point rate) is not
    modelled. *)
Definition total (self : TestResult) : nat :=
  passed self + failed self + skipped self.

Definition summary (self : TestResult) : bool := failed self =? 0.

(** A call of one of the three recording methods. *)
Inductive call : Type :=
| AddPass (test_name details : pystr)
| AddFail (test_name : pystr) (error : value)
| AddSkip (test_name reason : pystr).

Definition call_name (c : call) : pystr :=
  match c with
  | AddPass n _ | AddFail n _ | AddSkip n _ => n
  end.

Definition call_status (c : call) : pystr :=
  match c with
  | AddPass _ _ => py "PASS"
  | AddFail _ _ => py "FAIL"
  | AddSkip _ _ => py "SKIP"
  end.

Definition is_fail (c : call) : bool :=
  match c with
  | AddFail _ _ => true
  | _ => false
  end.

Definition apply_call (self : TestResult) (c : call) : TestResult :=
  match c with
  | AddPass n d => add_pass self n d
  | AddFail n e => add_fail self n e
  | AddSkip n r => add_skip self n r
  end.

Definition run (calls : list call) (self : TestResult) : TestResult :=
  fold_left apply_call calls self.

(** The number of recorded tests with the given status. *)
Definition count_status (status : pystr) (rs : list dict) : nat :=
  List.length
    (filter (fun r => match getitem r (py "status") with
                      | Ok v => pystr_eqb (py_str v) status
                      | KeyError _ => false
                      end) rs).

(** The counters agree with the recorded results. *)
Definition consistent (r : TestResult) : Prop :=
  passed r = count_status (py "PASS") (results r) /\
  failed r = count_status (py "FAIL") (results r) /\
  skipped r = count_status (py "SKIP") (results r) /\
  total r = List.length (results r).

(** Lines 76-85. *)
Definition required_vars : list (pystr * pystr) :=
  [ (py "API_KEY", py "API authentication key");
    (py "RPC_URL", py "Blockchain RPC endpoint");
    (py "PRIVATE_KEY", py "Wallet private key");
    (py "MULTI_SIG_ADDRESS", py "Multi-signature wallet address");
    (py "HOST", py "API host URL");
    (py "CHAIN_ID", py "Blockchain chain ID");
    (py "CONDITIONAL_TOKEN_ADDR", py "Conditional token contract address");
    (py "MULTISEND_ADDR", py "Multisend contract address") ].

(** The variable of the item is set to a non-empty string. *)
Definition present (env : environ) (item : pystr * pystr) : bool :=
  truthy (env (fst item)).

(** Lines 92-97: what is shown of the value of [var]. *)
Definition display_value (var value : pystr) : pystr :=
  if has_substring (py "KEY") var then
    if 10 <? List.length value
    then slice_to 6 value ++ py "..." ++ slice_last 4 value
    else py "***"
  else if has_substring (py "ADDRESS") var || has_substring (py "ADDR") var then
    if 10 <? List.length value
    then slice_to 6 value ++ py "..." ++ slice_last 4 value
    else value
  else value.

(** Lines 88-102: one pass of the loop over [required_vars.items()], on the
    flag [all_present] and the shared [results] object. *)
Definition test_environment_body (env : environ) (state : bool * TestResult)
  (item : pystr * pystr) : bool * TestResult :=
  let (all_present, results) := state in
  let (var, desc) := item in
  match env var with
  | Some (c :: rest) =>
      let value := c :: rest in
      (all_present,
       add_pass results (py "ENV: " ++ var)
                (desc ++ py ": " ++ display_value var value))
  | _ =>
      (false, add_fail results (py "ENV: " ++ var) (VStr (py "Missing: " ++ desc)))
  end.

(** Lines 72-104: the returned flag and the [results] object afterwards. *)
Definition test_environment (env : environ) (results : TestResult)
  : bool * TestResult :=
  fold_left (test_environment_body env) required_vars (true, results).

(** Lines 296-305: the dictionary that [save_results] writes out; the
    time stamp is what the clock gives. *)
Record output : Type := {
  output_timestamp : pystr;
  output_summary : dict;
  output_tests : list dict
}.

Definition save_results_output (timestamp : pystr) (res : TestResult) : output :=
  {| output_timestamp := timestamp;
     output_summary :=
       [ (py "total", VInt (Z.of_nat (passed res + failed res + skipped res)));
         (py "passed", VInt (Z.of_nat (passed res)));
         (py "failed", VInt (Z.of_nat (failed res)));
         (py "skipped", VInt (Z.of_nat (skipped res))) ];
     output_tests := results res |}.

End TestSdkAdvanced.

(** ** test_sdk.py *)

Module TestSdk.

(** Line 191. *)
Definition required_vars : list pystr :=
  [py "API_KEY"; py "RPC_URL"; py "PRIVATE_KEY"; py "MULTI_SIG_ADDRESS";
   py "HOST"; py "CHAIN_ID"].

(** Line 192. *)
Definition missing_vars (env : environ) : list pystr :=
  filter (fun var => negb (truthy (env var))) required_vars.

(** Lines 194-197: [main] returns 1 at once when a variable is missing;
    [None] stands for going on to the tests against the SDK. *)
Definition main_environment_check (env : environ) : option Z :=
  match missing_vars env with
  | [] => None
  | _ :: _ => Some 1%Z
  end.

End TestSdk.

(** * Properties *)

(** ** Strings, dictionaries, sorting *)

Lemma pystr_eqb_eq (a b : pystr) : pystr_eqb a b = true <-> a = b.
Proof.
  unfold pystr_eqb. destruct (list_eq_dec N.eq_dec a b); split; congruence.
Qed.

Lemma pystr_eqb_neq (a b : pystr) : pystr_eqb a b = false <-> a <> b.
Proof.
  unfold pystr_eqb. destruct (list_eq_dec N.eq_dec a b); split; congruence.
Qed.

Lemma pystr_eqb_refl (a : pystr) : pystr_eqb a a = true.
Proof. now apply pystr_eqb_eq. Qed.

Example py_str_numerals :
  py_str (VInt 1708) = py "1708" /\ py_str (VInt 0) = py "0" /\
  py_str (VInt (-12)) = py "-12" /\ py_str (str "0.01") = py "0.01".
Proof. repeat split. Qed.

Example sorted_keys :
  sorted [py "price"; py "maker"; py "makerAmount"; py "Zeta"]
  = [py "Zeta"; py "maker"; py "makerAmount"; py "price"].
Proof. reflexivity. Qed.

Lemma ascii_rows_table : ascii_rows table_isupper table_lower.
Proof.
  intros s Hs. split.
  - unfold table_isupper, ascii_isupper. f_equal; [|f_equal].
    + induction s as [|c s IH]; [reflexivity|]. simpl in *.
      apply andb_prop in Hs as [Hc Hs]. rewrite IH by exact Hs. f_equal.
      unfold casing_of. destruct (ascii_upper c); [reflexivity|].
      destruct (ascii_small c); [reflexivity|].
      apply N.ltb_lt in Hc.
      repeat match goal with
             | |- context [(c =? ?n)%N] =>
                 destruct (N.eqb_spec c n); [lia|]
             end.
      reflexivity.
    + induction s as [|c s IH]; [reflexivity|]. simpl in *.
      apply andb_prop in Hs as [Hc Hs]. rewrite IH by exact Hs. f_equal.
      unfold casing_of. destruct (ascii_upper c) eqn:Hu.
      * unfold ascii_upper, ascii_small in *.
        apply andb_prop in Hu as [_ Hu]. apply N.leb_le in Hu.
        symmetry. apply andb_false_iff. left. apply N.leb_gt. lia.
      * destruct (ascii_small c); [reflexivity|].
        apply N.ltb_lt in Hc.
        repeat match goal with
               | |- context [(c =? ?n)%N] =>
                   destruct (N.eqb_spec c n); [lia|]
               end.
        reflexivity.
  - unfold table_lower, ascii_lower.
    induction s as [|c s IH]; [reflexivity|]. simpl in *.
    apply andb_prop in Hs as [Hc Hs]. rewrite IH by exact Hs.
    unfold lower_of. destruct (ascii_upper c); [reflexivity|].
    apply N.ltb_lt in Hc.
    repeat match goal with
           | |- context [(c =? ?n)%N] =>
               destruct (N.eqb_spec c n); [lia|]
           end.
    reflexivity.
Qed.

Lemma ascii_rows_ascii : ascii_rows ascii_isupper ascii_lower.
Proof. intros s _. split; reflexivity. Qed.

(** ** Case normaliser *)

Section Normaliser.

Variable isupper : pystr -> bool.
Variable lower : pystr -> pystr.


(** The loop of lines 36-41, started at index [i] with [acc] collected. *)
Lemma camel_loop_from (s : pystr) : forall (i : nat) (acc : list pystr),
  join (fold_left (camel_step isupper lower)
                  (combine (seq i (List.length s)) s) acc)
  = join acc ++ snake_from isupper lower i s.
Proof.
  induction s as [|c s IH]; intros i acc; simpl.
  - now rewrite app_nil_r.
  - rewrite IH. unfold join.
    destruct (isupper [c]), i; simpl;
      rewrite ?concat_app; simpl; rewrite ?app_nil_r, <- ?app_assoc;
      reflexivity.
Qed.

Lemma camel_to_snake_unfold (s : pystr) :
  camel_to_snake isupper lower s = snake_from isupper lower 0 s.
Proof. unfold camel_to_snake, enumerate. now rewrite camel_loop_from. Qed.

Local Abbreviation camel_to_snake := (camel_to_snake isupper lower).
Local Abbreviation snake_from := (snake_from isupper lower).
Local Abbreviation unchanged_by_lower := (unchanged_by_lower isupper lower).

(** Past index 0 the position no longer matters. *)
Lemma snake_from_pos (s : pystr) (i j : nat) :
  snake_from (S i) s = snake_from (S j) s.
Proof.
  revert i j. induction s as [|c s IH]; intros i j; simpl; [reflexivity|].
  now rewrite (IH (S i) (S j)).
Qed.

Lemma snake_from_app (p q : pystr) (i : nat) :
  snake_from i (p ++ q) = snake_from i p ++ snake_from (i + List.length p) q.
Proof.
  revert i. induction p as [|c p IH]; intros i; simpl.
  - now rewrite Nat.add_0_r.
  - rewrite IH, <- !app_assoc. now rewrite Nat.add_succ_r.
Qed.

Lemma snake_from_fixed (s : pystr) (i : nat) :
  unchanged_by_lower s = true -> snake_from i s = s.
Proof.
  revert i. induction s as [|c s IH]; intros i H; simpl in *; [reflexivity|].
  apply andb_prop in H as [Hc Hs]. apply andb_prop in Hc as [Hu Hl].
  apply negb_true_iff in Hu. apply pystr_eqb_eq in Hl.
  rewrite Hu, Hl, IH by exact Hs. reflexivity.
Qed.

(** Where the characters of the output come from. *)
Lemma in_snake_from (d : codepoint) (s : pystr) (i : nat) :
  In d (snake_from i s) ->
  d = underscore \/ exists c, In c s /\ In d (lower [c]).
Proof.
  revert i. induction s as [|c s IH]; intros i H; simpl in H; [contradiction|].
  apply in_app_or in H as [H|H].
  - destruct (isupper [c]); [|contradiction].
    destruct i; [contradiction|]. destruct H as [H|[]]. now left.
  - apply in_app_or in H as [H|H].
    + right. exists c. split; [now left|exact H].
    + destruct (IH _ H) as [E|(c' & Hin & Hd)]; [now left|].
      right. exists c'. split; [now right|exact Hd].
Qed.

(** When the first character is not upper-case, the index test of line 37
    never decides: every upper-case character gets its underscore. *)
Lemma snake_from_pos_flat (s : pystr) (i : nat) :
  snake_from (S i) s
  = flat_map (fun c => if isupper [c] then underscore :: lower [c]
                       else lower [c]) s.
Proof.
  revert i. induction s as [|c s IH]; intros i; simpl; [reflexivity|].
  rewrite IH. now destruct (isupper [c]).
Qed.

Lemma length_snake_from_pos (s : pystr) (i : nat) :
  List.length (snake_from (S i) s)
  = List.length (flat_map (fun c => lower [c]) s) + count_upper isupper s.
Proof.
  revert i. unfold count_upper.
  induction s as [|c s IH]; intros i; simpl; [reflexivity|].
  rewrite !length_app, IH.
  destruct (isupper [c]); simpl; lia.
Qed.

Lemma length_flat_lower (s : pystr) :
  forallb (fun c => List.length (lower [c]) =? 1) s = true ->
  List.length (flat_map (fun c => lower [c]) s) = List.length s.
Proof.
  induction s as [|c s IH]; simpl; intros H; [reflexivity|].
  apply andb_prop in H as [Hc Hs]. apply Nat.eqb_eq in Hc.
  rewrite length_app, IH by exact Hs. lia.
Qed.

End Normaliser.

(** The normaliser only consults the two methods on the one-character
    strings of its argument. *)
Lemma snake_from_ext (isupper isupper' : pystr -> bool) (lower lower' : pystr -> pystr)
  (s : pystr) (i : nat) :
  (forall c, In c s -> isupper [c] = isupper' [c] /\ lower [c] = lower' [c]) ->
  snake_from isupper lower i s = snake_from isupper' lower' i s.
Proof.
  revert i. induction s as [|c s IH]; intros i H; simpl; [reflexivity|].
  destruct (H c (or_introl eq_refl)) as [-> ->].
  rewrite IH; [reflexivity|]. intros d Hd. apply H. now right.
Qed.

Lemma is_ascii_single (s : pystr) (c : codepoint) :
  is_ascii s = true -> In c s -> is_ascii [c] = true.
Proof.
  unfold is_ascii. rewrite forallb_forall. intros H Hc. simpl.
  now rewrite (H c Hc).
Qed.

Lemma camel_to_snake_ascii (isupper : pystr -> bool) (lower : pystr -> pystr)
  (s : pystr) :
  ascii_rows isupper lower -> is_ascii s = true ->
  camel_to_snake isupper lower s = camel_to_snake ascii_isupper ascii_lower s.
Proof.
  intros Hrows Hs. rewrite !camel_to_snake_unfold. apply snake_from_ext.
  intros c Hc. apply Hrows. exact (is_ascii_single s c Hs Hc).
Qed.

Lemma ascii_underscore (isupper : pystr -> bool) (lower : pystr -> pystr) :
  ascii_rows isupper lower ->
  isupper [underscore] = false /\ lower [underscore] = [underscore].
Proof. intros H. destruct (H [underscore] eq_refl) as [-> ->]. now split. Qed.

(** On ASCII text, lower-casing yields characters that are not upper-case
    and that lower-casing leaves alone. *)
Lemma ascii_lower_settles (isupper : pystr -> bool) (lower : pystr -> pystr)
  (s : pystr) :
  ascii_rows isupper lower -> is_ascii s = true ->
  lower_settles isupper lower s = true.
Proof.
  intros Hrows Hs. unfold lower_settles. apply forallb_forall. intros c Hc.
  pose proof (is_ascii_single s c Hs Hc) as Hc1.
  destruct (Hrows [c] Hc1) as [_ ->]. simpl.
  simpl in Hc1. rewrite andb_true_r in Hc1. apply N.ltb_lt in Hc1.
  set (d := if ascii_upper c then (c + 32)%N else c).
  assert (Hd : (d < 128)%N /\ ascii_upper d = false).
  { unfold d, ascii_upper. destruct ((65 <=? c)%N && (c <=? 90)%N) eqn:E.
    - apply andb_prop in E as [E1 E2]. apply N.leb_le in E1, E2.
      split; [lia|]. apply andb_false_iff. right. apply N.leb_gt. lia.
    - split; [lia|exact E]. }
  destruct Hd as [Hlt Hup].
  assert (Hd1 : is_ascii [d] = true).
  { simpl. rewrite andb_true_r. now apply N.ltb_lt. }
  destruct (Hrows [d] Hd1) as [Hi Hl].
  unfold unchanged_by_lower. cbn [map forallb]. fold d.
  rewrite Hi, Hl. unfold ascii_isupper, ascii_lower. simpl. rewrite Hup. simpl.
  now rewrite pystr_eqb_refl.
Qed.

(** An ASCII string without upper-case characters is one that [lower]
    leaves alone. *)
Lemma ascii_unchanged_by_lower (isupper : pystr -> bool) (lower : pystr -> pystr)
  (s : pystr) :
  ascii_rows isupper lower -> is_ascii s = true ->
  has_upper isupper s = false -> unchanged_by_lower isupper lower s = true.
Proof.
  intros Hrows Hs Hu. unfold unchanged_by_lower. apply forallb_forall.
  intros c Hc. pose proof (is_ascii_single s c Hs Hc) as Hc1.
  assert (Hcu : isupper [c] = false).
  { unfold has_upper in Hu. destruct (isupper [c]) eqn:E; [|reflexivity].
    assert (existsb (fun c => isupper [c]) s = true)
      by (apply existsb_exists; exists c; now split).
    congruence. }
  rewrite Hcu. simpl. destruct (Hrows [c] Hc1) as [Hi ->].
  rewrite Hcu in Hi. unfold ascii_isupper, ascii_lower in *. simpl in *.
  destruct (ascii_upper c) eqn:E; simpl in *.
  - destruct (ascii_small c) eqn:E2; [|discriminate].
    unfold ascii_upper, ascii_small in *.
    apply andb_prop in E as [_ E]. apply andb_prop in E2 as [E2 _].
    apply N.leb_le in E, E2. lia.
  - apply pystr_eqb_refl.
Qed.

(** ** Claims on the case normaliser *)

(** C2.  For every input string, the loop of [camel_to_snake] returns the
    string obtained by inserting an underscore before every upper-case
    character that is not at index 0 and lower-casing every character.  The
    function is defined on every string and depends on nothing but its
    argument and the two string methods. *)
Theorem camel_to_snake_is_normalize_spec
  (isupper : pystr -> bool) (lower : pystr -> pystr) (s : pystr) :
  camel_to_snake isupper lower s = normalize_spec isupper lower s.
Proof. apply camel_to_snake_unfold. Qed.

(** C4.  A name that is already in snake_case -- no character is upper-case
    and every character is its own lower-case form, as lower-case letters,
    digits and underscores are -- is returned unchanged. *)
Theorem snake_case_unchanged
  (isupper : pystr -> bool) (lower : pystr -> pystr) (x : pystr)
  (Hx : unchanged_by_lower isupper lower x = true) :
  camel_to_snake isupper lower x = x.
Proof. rewrite camel_to_snake_unfold. now apply snake_from_fixed. Qed.

Lemma snake_case_unchanged_witness :
  unchanged_by_lower ascii_isupper ascii_lower (py "token_id") = true /\
  camel_to_snake ascii_isupper ascii_lower (py "token_id") = py "token_id".
Proof.
  split; [reflexivity|].
  apply (snake_case_unchanged ascii_isupper ascii_lower (py "token_id")).
  reflexivity.
Defined.

(** A title-case letter is not a lower-case letter, so a name that has one
    is not in snake_case: U+01C5 is not upper-case for [isupper], yet
    [lower] turns it into U+01C6. *)
Example titlecase_letter_is_lowered :
  has_upper table_isupper [453%N] = false /\
  camel_to_snake table_isupper table_lower [453%N] = [454%N] /\
  camel_to_snake table_isupper table_lower [453%N] <> [453%N].
Proof. repeat split; try reflexivity. discriminate. Qed.

(** C8, as amended.  When the lower-case form of every character of [s]
    consists of characters that are not upper-case and that [lower] leaves
    alone (and so does the underscore), the output has no upper-case
    character and normalising it again changes nothing.  By
    [ascii_lower_settles] every ASCII string is such a string. *)
Theorem camel_to_snake_idempotent
  (isupper : pystr -> bool) (lower : pystr -> pystr) (s : pystr)
  (Hunderscore : unchanged_by_lower isupper lower [underscore] = true)
  (Hs : lower_settles isupper lower s = true) :
  has_upper isupper (camel_to_snake isupper lower s) = false /\
  camel_to_snake isupper lower (camel_to_snake isupper lower s)
  = camel_to_snake isupper lower s.
Proof.
  assert (Hout : unchanged_by_lower isupper lower
                   (camel_to_snake isupper lower s) = true).
  { apply forallb_forall. intros d Hd. rewrite camel_to_snake_unfold in Hd.
    apply in_snake_from in Hd as [->|(c & Hc & Hd)].
    - simpl in Hunderscore. now rewrite andb_true_r in Hunderscore.
    - unfold lower_settles in Hs. rewrite forallb_forall in Hs.
      specialize (Hs c Hc). unfold unchanged_by_lower in Hs.
      rewrite forallb_forall in Hs. exact (Hs d Hd). }
  split.
  - unfold has_upper. apply not_true_is_false. intros H.
    apply existsb_exists in H as (d & Hd & Hup).
    unfold unchanged_by_lower in Hout. rewrite forallb_forall in Hout.
    specialize (Hout d Hd). rewrite Hup in Hout. discriminate.
  - rewrite (camel_to_snake_unfold isupper lower (camel_to_snake isupper lower s)).
    now apply snake_from_fixed.
Qed.

Lemma camel_to_snake_idempotent_witness :
  unchanged_by_lower ascii_isupper ascii_lower [underscore] = true /\
  lower_settles ascii_isupper ascii_lower (py "tokenId") = true /\
  has_upper ascii_isupper
    (camel_to_snake ascii_isupper ascii_lower (py "tokenId")) = false /\
  camel_to_snake ascii_isupper ascii_lower
    (camel_to_snake ascii_isupper ascii_lower (py "tokenId"))
  = camel_to_snake ascii_isupper ascii_lower (py "tokenId").
Proof.
  split; [reflexivity|]. split; [reflexivity|].
  apply (camel_to_snake_idempotent ascii_isupper ascii_lower (py "tokenId"));
    reflexivity.
Defined.

(** C8 as stated fails on an upper-case character without a lower-case
    form: U+2102 stays in the output, and after a first character every
    further pass puts one more underscore in front of it. *)
Lemma camel_to_snake_keeps_unmapped_capital :
  has_upper table_isupper
    (camel_to_snake table_isupper table_lower [8450%N]) = true /\
  camel_to_snake table_isupper table_lower (py "a" ++ [8450%N])
  = py "a_" ++ [8450%N] /\
  camel_to_snake table_isupper table_lower
    (camel_to_snake table_isupper table_lower (py "a" ++ [8450%N]))
  = py "a__" ++ [8450%N] /\
  camel_to_snake table_isupper table_lower
    (camel_to_snake table_isupper table_lower (py "a" ++ [8450%N]))
  <> camel_to_snake table_isupper table_lower (py "a" ++ [8450%N]).
Proof. repeat split; try reflexivity. discriminate. Qed.

(** C5, as amended.  In a camelCase identifier (runs of characters that are
    not upper-case, separated by single upper-case letters, the first
    character not upper-case) the normaliser puts exactly one underscore
    before each upper-case letter and lower-cases every character.  The
    length of the output is the length of the lower-cased input plus the
    number of upper-case letters, which is the length of the input plus that
    number when every lower-case form is one character long.  The two
    examples of the specification come out as stated. *)
Theorem camel_identifier_one_underscore_per_capital
  (isupper : pystr -> bool) (lower : pystr -> pystr) (s : pystr)
  (Hrows : ascii_rows isupper lower)
  (Hs : camel_identifier isupper s = true) :
  camel_to_snake isupper lower s
  = flat_map (fun c => if isupper [c] then underscore :: lower [c]
                       else lower [c]) s /\
  List.length (camel_to_snake isupper lower s)
  = List.length (flat_map (fun c => lower [c]) s) + count_upper isupper s /\
  (forallb (fun c => List.length (lower [c]) =? 1) s = true ->
   List.length (camel_to_snake isupper lower s)
   = List.length s + count_upper isupper s) /\
  camel_to_snake isupper lower (py "contractAddress") = py "contract_address" /\
  camel_to_snake isupper lower (py "tradingMethod") = py "trading_method".
Proof.
  assert (Hshape : forall i, snake_from isupper lower 0 s
                             = snake_from isupper lower (S i) s).
  { destruct s as [|c s]; [discriminate|]. simpl in Hs.
    apply andb_prop in Hs as [Hc _]. apply negb_true_iff in Hc.
    intros i. simpl. rewrite Hc. simpl.
    now rewrite (snake_from_pos isupper lower s 0 (S i)). }
  rewrite camel_to_snake_unfold, (Hshape 0).
  split; [apply snake_from_pos_flat|].
  split; [apply length_snake_from_pos|].
  split.
  - intros Hone. rewrite length_snake_from_pos.
    now rewrite length_flat_lower.
  - split; (rewrite camel_to_snake_ascii; [reflexivity|exact Hrows|reflexivity]).
Qed.

Lemma camel_identifier_one_underscore_per_capital_witness :
  ascii_rows ascii_isupper ascii_lower /\
  camel_identifier ascii_isupper (py "makerAmount") = true /\
  camel_to_snake ascii_isupper ascii_lower (py "makerAmount") = py "maker_amount" /\
  List.length (camel_to_snake ascii_isupper ascii_lower (py "makerAmount"))
  = 11 + 1.
Proof.
  split; [exact ascii_rows_ascii|]. split; [reflexivity|].
  destruct (camel_identifier_one_underscore_per_capital
              ascii_isupper ascii_lower (py "makerAmount")
              ascii_rows_ascii eq_refl) as (Hflat & _ & Hlen & _).
  split; [exact Hflat|]. exact (Hlen eq_refl).
Defined.

(** C5 as stated fails on the length: the lower-case form of U+0130 is two
    code points long, so the three-character identifier a, U+0130, b with its
    one upper-case letter gives five characters, not four. *)
Lemma camel_identifier_length_fails_on_dotted_capital_i :
  camel_identifier table_isupper [97%N; 304%N; 98%N] = true /\
  count_upper table_isupper [97%N; 304%N; 98%N] = 1 /\
  camel_to_snake table_isupper table_lower [97%N; 304%N; 98%N]
  = [97%N; 95%N; 105%N; 775%N; 98%N] /\
  List.length (camel_to_snake table_isupper table_lower [97%N; 304%N; 98%N])
  <> List.length [97%N; 304%N; 98%N]
     + count_upper table_isupper [97%N; 304%N; 98%N].
Proof. repeat split; try reflexivity. discriminate. Qed.

(** ** Dictionaries, sets and sorting *)

Lemma existsb_eqb_in (k : pystr) (l : list pystr) :
  existsb (pystr_eqb k) l = true <-> In k l.
Proof.
  rewrite existsb_exists. split.
  - intros (x & Hx & E). apply pystr_eqb_eq in E. now subst.
  - intros H. exists k. split; [exact H|apply pystr_eqb_refl].
Qed.

Lemma contains_in (k : pystr) (d : dict) :
  contains k d = true <-> In k (keys d).
Proof. apply existsb_eqb_in. Qed.

Lemma getitem_of_key (d : dict) (k : pystr) :
  In k (keys d) -> exists v, getitem d k = Ok v.
Proof.
  induction d as [|[k' v'] d IH]; simpl; [contradiction|].
  intros [E|H].
  - subst. rewrite pystr_eqb_refl. now exists v'.
  - destruct (pystr_eqb k k'); [now exists v'|now apply IH].
Qed.

Lemma getitem_in (d : dict) (k : pystr) (v : value) :
  getitem d k = Ok v -> In (k, v) d.
Proof.
  induction d as [|[k' v'] d IH]; simpl; [discriminate|].
  destruct (pystr_eqb k k') eqn:E.
  - apply pystr_eqb_eq in E. intros [= ->]. left. now subst.
  - intros H. right. now apply IH.
Qed.

Lemma getitem_key (d : dict) (k : pystr) (v : value) :
  getitem d k = Ok v -> In k (keys d).
Proof. intros H. apply getitem_in in H. exact (in_map fst d (k, v) H). Qed.

Lemma set_of_in (k : pystr) (l : list pystr) : In k (set_of l) <-> In k l.
Proof.
  induction l as [|x l IH]; simpl; [tauto|].
  destruct (existsb (pystr_eqb x) l) eqn:E.
  - apply existsb_eqb_in in E. rewrite IH. split; [tauto|].
    intros [->|H]; assumption.
  - simpl. rewrite IH. tauto.
Qed.

Lemma set_contains_keys (k : pystr) (d : dict) :
  set_contains k (set_of (keys d)) = contains k d.
Proof.
  unfold set_contains, contains.
  destruct (existsb (pystr_eqb k) (keys d)) eqn:E.
  - apply existsb_eqb_in. apply set_of_in. now apply existsb_eqb_in.
  - apply not_true_is_false. intros H.
    apply (proj1 (existsb_eqb_in _ _)) in H. apply (proj1 (set_of_in _ _)) in H.
    apply (proj2 (existsb_eqb_in _ _)) in H. congruence.
Qed.

Lemma insert_sorted_perm (x : pystr) (l : list pystr) :
  Permutation (insert_sorted x l) (x :: l).
Proof.
  induction l as [|y l IH]; simpl; [reflexivity|].
  destruct (pystr_leb x y); [reflexivity|].
  rewrite IH. apply perm_swap.
Qed.

Lemma sorted_perm (l : list pystr) : Permutation (sorted l) l.
Proof.
  induction l as [|x l IH]; simpl; [reflexivity|].
  rewrite insert_sorted_perm. now constructor.
Qed.

Lemma filter_perm {A : Type} (p : A -> bool) (l l' : list A) :
  Permutation l l' -> Permutation (filter p l) (filter p l').
Proof.
  induction 1 as [|x l l' _ IH|x y l|l l' l'' _ IH1 _ IH2]; simpl.
  - reflexivity.
  - destruct (p x); [now constructor|exact IH].
  - destruct (p x), (p y); try reflexivity. apply perm_swap.
  - now transitivity (filter p l').
Qed.

(** Three tests of which exactly one holds on every element split a list
    into three parts that together are the list again. *)
Lemma three_way_split {A : Type} (p q r : A -> bool) (l : list A) :
  (forall x, In x l ->
     (p x = true /\ q x = false /\ r x = false) \/
     (p x = false /\ q x = true /\ r x = false) \/
     (p x = false /\ q x = false /\ r x = true)) ->
  Permutation (filter p l ++ filter q l ++ filter r l) l.
Proof.
  induction l as [|x l IH]; intros H; simpl; [reflexivity|].
  assert (IH' := IH (fun y Hy => H y (or_intror Hy))).
  destruct (H x (or_introl eq_refl))
    as [(-> & -> & ->)|[(-> & -> & ->)|(-> & -> & ->)]]; simpl.
  - now constructor.
  - rewrite <- Permutation_middle. now constructor.
  - rewrite app_assoc, <- Permutation_middle, <- app_assoc. now constructor.
Qed.

Lemma for_each_appends {A B : Type} (body : list B -> A -> result (list B))
  (f : A -> list B) (xs : list A) :
  (forall x, In x xs -> forall acc, body acc x = Ok (acc ++ f x)) ->
  forall acc, for_each body xs acc = Ok (acc ++ flat_map f xs).
Proof.
  induction xs as [|x xs IH]; intros H acc; simpl.
  - now rewrite app_nil_r.
  - rewrite (H x (or_introl eq_refl)). simpl.
    rewrite IH by (intros y Hy; apply H; now right).
    now rewrite app_assoc.
Qed.

Lemma flat_map_filter {A : Type} (p : A -> bool) (l : list A) :
  flat_map (fun x => if p x then [x] else []) l = filter p l.
Proof.
  induction l as [|x l IH]; simpl; [reflexivity|].
  rewrite IH. now destruct (p x).
Qed.

(** ** The comparison loops *)

Section Comparator.

Variable isupper : pystr -> bool.
Variable lower : pystr -> pystr.
Variables A B : dict.

Local Abbreviation snake := (camel_to_snake isupper lower).
Local Abbreviation outcome_of := (classify isupper lower A B).

(** The outcome of a key of [A] in terms of its two raw values. *)
Lemma classify_unmatched (k : pystr) :
  contains (snake k) B = false -> outcome_of k = Unmatched.
Proof. intros H. unfold classify. now rewrite H. Qed.

Lemma classify_present (k : pystr) (a b : value) :
  getitem A k = Ok a -> getitem B (snake k) = Ok b ->
  outcome_of k
  = if pystr_eqb (lower (py_str a)) (lower (py_str b)) then Matched
    else Mismatched a b.
Proof.
  intros Ha Hb. unfold classify. rewrite Ha, Hb.
  apply getitem_key, contains_in in Hb. now rewrite Hb.
Qed.

Lemma key_cases (k : pystr) :
  In k (keys A) ->
  (contains (snake k) B = false /\ outcome_of k = Unmatched) \/
  (exists a b, contains (snake k) B = true /\
               getitem A k = Ok a /\ getitem B (snake k) = Ok b /\
               outcome_of k
               = if pystr_eqb (lower (py_str a)) (lower (py_str b))
                 then Matched else Mismatched a b).
Proof.
  intros Hk. destruct (contains (snake k) B) eqn:E.
  - right. destruct (getitem_of_key A k Hk) as [a Ha].
    destruct (getitem_of_key B (snake k) (proj1 (contains_in _ _) E)) as [b Hb].
    exists a, b. repeat split; try assumption.
    now apply classify_present.
  - left. split; [reflexivity|now apply classify_unmatched].
Qed.

(** One pass of each loop body on a key of [A] raises nothing and appends
    what the outcome of the key says. *)
Lemma differences_body_ok (k : pystr) (acc : list difference) :
  In k (keys A) ->
  differences_body isupper lower A B acc k
  = Ok (acc ++ difference_of isupper lower A B k).
Proof.
  intros Hk. unfold differences_body, difference_of.
  destruct (key_cases k Hk) as [[E ->]|(a & b & E & Ha & Hb & ->)];
    rewrite E; [now rewrite app_nil_r|].
  rewrite Ha, Hb. simpl.
  destruct (pystr_eqb (lower (py_str a)) (lower (py_str b))); simpl.
  - now rewrite app_nil_r.
  - reflexivity.
Qed.

Lemma same_fields_body_ok (k : pystr) (acc : list pystr) :
  In k (keys A) ->
  same_fields_body isupper lower A B acc k
  = Ok (acc ++ if is_matched isupper lower A B k then [k] else []).
Proof.
  intros Hk. unfold same_fields_body, is_matched.
  destruct (key_cases k Hk) as [[E ->]|(a & b & E & Ha & Hb & ->)];
    rewrite E; [now rewrite app_nil_r|].
  rewrite Ha, Hb. simpl.
  destruct (pystr_eqb (lower (py_str a)) (lower (py_str b))); simpl;
    [reflexivity|now rewrite app_nil_r].
Qed.

Lemma differences_ok :
  differences isupper lower A B
  = Ok (flat_map (difference_of isupper lower A B) (keys A)).
Proof.
  unfold differences.
  rewrite (for_each_appends _ (difference_of isupper lower A B)); [reflexivity|].
  intros k Hk acc. now apply differences_body_ok.
Qed.

Lemma same_fields_ok :
  same_fields isupper lower A B
  = Ok (filter (is_matched isupper lower A B) (keys A)).
Proof.
  unfold same_fields. rewrite <- flat_map_filter.
  rewrite (for_each_appends _
             (fun k => if is_matched isupper lower A B k then [k] else []));
    [reflexivity|].
  intros k Hk acc. now apply same_fields_body_ok.
Qed.

Lemma unmatched_ok :
  unmatched isupper lower A B
  = filter (is_unmatched isupper lower B) (sorted (keys A)).
Proof.
  unfold unmatched, field_mapping. rewrite filter_map_swap, map_map. simpl.
  rewrite map_id. apply filter_ext. intros k. unfold is_unmatched.
  now rewrite set_contains_keys.
Qed.

Lemma difference_keys_ok (l : list pystr) :
  map difference_key (flat_map (difference_of isupper lower A B) l)
  = filter (is_mismatched isupper lower A B) l.
Proof.
  induction l as [|k l IH]; simpl; [reflexivity|].
  rewrite map_app, IH. unfold difference_of, is_mismatched.
  now destruct (outcome_of k).
Qed.

(** Exactly one of the three tests holds on a key of [A]. *)
Lemma one_outcome (k : pystr) :
  In k (keys A) ->
  (is_unmatched isupper lower B k = true /\
   is_mismatched isupper lower A B k = false /\
   is_matched isupper lower A B k = false) \/
  (is_unmatched isupper lower B k = false /\
   is_mismatched isupper lower A B k = true /\
   is_matched isupper lower A B k = false) \/
  (is_unmatched isupper lower B k = false /\
   is_mismatched isupper lower A B k = false /\
   is_matched isupper lower A B k = true).
Proof.
  intros Hk. unfold is_unmatched, is_mismatched, is_matched.
  destruct (key_cases k Hk) as [[E ->]|(a & b & E & _ & _ & ->)]; rewrite E.
  - left. now repeat split.
  - destruct (pystr_eqb (lower (py_str a)) (lower (py_str b)));
      [right; right|right; left]; now repeat split.
Qed.

Lemma in_differences (r : difference) :
  In r (flat_map (difference_of isupper lower A B) (keys A)) <->
  exists k a b, In k (keys A) /\ outcome_of k = Mismatched a b /\
                r = (k, snake k, a, b).
Proof.
  rewrite in_flat_map. unfold difference_of. split.
  - intros (k & Hk & Hr). destruct (outcome_of k) as [|a b|] eqn:E;
      try contradiction.
    destruct Hr as [<-|[]]. now exists k, a, b.
  - intros (k & a & b & Hk & E & ->). exists k. split; [exact Hk|].
    rewrite E. now left.
Qed.

End Comparator.

(** ** Claims on the comparison *)




(** ** The comparison on ASCII dictionaries

    The loops consult the two string methods only on the characters of the
    keys of the first dictionary and on the string forms of the values, so
    on ASCII dictionaries any two pairs of methods that behave on ASCII as
    the interpreter does give the same three lists. *)

Section Agreement.

Variables isupper isupper' : pystr -> bool.
Variables lower lower' : pystr -> pystr.
Variables A B : dict.

Hypothesis same_snake : forall k,
  In k (keys A) ->
  camel_to_snake isupper lower k = camel_to_snake isupper' lower' k.
Hypothesis same_lower : forall k v,
  In (k, v) A \/ In (k, v) B -> lower (py_str v) = lower' (py_str v).

Lemma classify_agrees (k : pystr) :
  In k (keys A) ->
  classify isupper lower A B k = classify isupper' lower' A B k.
Proof.
  intros Hk. unfold classify. rewrite (same_snake k Hk).
  destruct (contains _ B); [|reflexivity].
  destruct (getitem A k) as [a|] eqn:Ha; [|reflexivity].
  destruct (getitem B _) as [b|] eqn:Hb; [|reflexivity].
  apply getitem_in in Ha, Hb.
  rewrite (same_lower k a (or_introl Ha)).
  now rewrite (same_lower _ b (or_intror Hb)).
Qed.

Lemma differences_agree :
  differences isupper lower A B = differences isupper' lower' A B.
Proof.
  rewrite !differences_ok. f_equal. rewrite !flat_map_concat_map. f_equal.
  apply map_ext_in. intros k Hk. unfold difference_of.
  now rewrite (classify_agrees k Hk), (same_snake k Hk).
Qed.

Lemma same_fields_agree :
  same_fields isupper lower A B = same_fields isupper' lower' A B.
Proof.
  rewrite !same_fields_ok. f_equal. apply filter_ext_in. intros k Hk.
  unfold is_matched. now rewrite (classify_agrees k Hk).
Qed.

Lemma unmatched_agree :
  unmatched isupper lower A B = unmatched isupper' lower' A B.
Proof.
  rewrite !unmatched_ok. apply filter_ext_in. intros k Hk.
  apply (Permutation_in k (sorted_perm (keys A))) in Hk.
  unfold is_unmatched. now rewrite (same_snake k Hk).
Qed.

End Agreement.

Lemma ascii_dict_item (d : dict) (k : pystr) (v : value) :
  ascii_dict d = true -> In (k, v) d ->
  is_ascii k = true /\ is_ascii (py_str v) = true.
Proof.
  unfold ascii_dict. rewrite forallb_forall. intros H Hin.
  specialize (H (k, v) Hin). now apply andb_prop in H.
Qed.

Lemma ascii_dict_key (d : dict) (k : pystr) :
  ascii_dict d = true -> In k (keys d) -> is_ascii k = true.
Proof.
  intros H Hk. apply in_map_iff in Hk as ([k' v] & <- & Hin).
  exact (proj1 (ascii_dict_item d k' v H Hin)).
Qed.

(** On ASCII dictionaries the script can be run with the ASCII methods. *)
Lemma comparison_on_ascii (isupper : pystr -> bool) (lower : pystr -> pystr)
  (A B : dict) :
  ascii_rows isupper lower -> ascii_dict A = true -> ascii_dict B = true ->
  unmatched isupper lower A B = unmatched ascii_isupper ascii_lower A B /\
  differences isupper lower A B = differences ascii_isupper ascii_lower A B /\
  same_fields isupper lower A B = same_fields ascii_isupper ascii_lower A B.
Proof.
  intros Hrows HA HB.
  assert (Hsnake : forall k, In k (keys A) ->
            camel_to_snake isupper lower k
            = camel_to_snake ascii_isupper ascii_lower k).
  { intros k Hk. apply camel_to_snake_ascii; [exact Hrows|].
    exact (ascii_dict_key A k HA Hk). }
  assert (Hlower : forall k v, In (k, v) A \/ In (k, v) B ->
            lower (py_str v) = ascii_lower (py_str v)).
  { intros k v [H|H]; apply Hrows;
      [exact (proj2 (ascii_dict_item A k v HA H))
      |exact (proj2 (ascii_dict_item B k v HB H))]. }
  split; [|split].
  - now apply unmatched_agree.
  - now apply differences_agree.
  - now apply same_fields_agree.
Qed.

(** The script on its own two dictionaries: nothing is unmatched, five
    fields differ, seventeen agree ([currencyAddress] among them, whose two
    values differ in letter case only). *)
Lemma script_run :
  unmatched ascii_isupper ascii_lower first second = [] /\
  (exists D, differences ascii_isupper ascii_lower first second = Ok D /\
             map difference_key D
             = [py "maker"; py "salt"; py "sign"; py "signature"; py "timestamp"]) /\
  same_fields ascii_isupper ascii_lower first second
  = Ok [py "contractAddress"; py "currencyAddress"; py "expiration";
        py "feeRateBps"; py "makerAmount"; py "nonce"; py "orderExpTime";
        py "price"; py "safeRate"; py "side"; py "signatureType"; py "signer";
        py "taker"; py "takerAmount"; py "tokenId"; py "topicId";
        py "tradingMethod"].
Proof.
  split; [vm_compute; reflexivity|]. split.
  - eexists. split; [vm_compute; reflexivity|]. vm_compute. reflexivity.
  - vm_compute. reflexivity.
Qed.

(** ** Claims on examples and on keys that collide or mix conventions *)

(** C6.  On the first example of the specification the comparison gives
    matched = maker (the two addresses differ in letter case only),
    mismatched = price with the raw values 0.01 and 0.02, and nothing
    unmatched; on the second, feeRateBps is unmatched (and nothing else is
    recorded). *)
Theorem end_to_end_examples
  (isupper : pystr -> bool) (lower : pystr -> pystr)
  (Hrows : ascii_rows isupper lower) :
  same_fields isupper lower example_A example_B = Ok [py "maker"] /\
  differences isupper lower example_A example_B
  = Ok [(py "price", py "price", str "0.01", str "0.02")] /\
  unmatched isupper lower example_A example_B = [] /\
  unmatched isupper lower absent_A absent_B = [py "feeRateBps"] /\
  differences isupper lower absent_A absent_B = Ok [] /\
  same_fields isupper lower absent_A absent_B = Ok [].
Proof.
  destruct (comparison_on_ascii isupper lower example_A example_B
              Hrows eq_refl eq_refl) as (-> & -> & ->).
  destruct (comparison_on_ascii isupper lower absent_A absent_B
              Hrows eq_refl eq_refl) as (-> & -> & ->).
  repeat split; vm_compute; reflexivity.
Qed.

Lemma end_to_end_examples_witness :
  ascii_rows ascii_isupper ascii_lower /\
  same_fields ascii_isupper ascii_lower example_A example_B = Ok [py "maker"] /\
  unmatched ascii_isupper ascii_lower absent_A absent_B = [py "feeRateBps"].
Proof.
  split; [exact ascii_rows_ascii|].
  destruct (end_to_end_examples ascii_isupper ascii_lower ascii_rows_ascii)
    as (Hsame & _ & _ & Hun & _).
  split; [exact Hsame|exact Hun].
Defined.

(** C9.  The normaliser is not injective: tokenId and token_id are distinct
    and both become token_id.  In a dictionary that has both keys, both are
    compared with the one entry token_id of the second dictionary, and both
    are filed as matched against it. *)
Theorem camel_to_snake_not_injective
  (isupper : pystr -> bool) (lower : pystr -> pystr)
  (Hrows : ascii_rows isupper lower) :
  (exists x y : pystr,
     x <> y /\ camel_to_snake isupper lower x = camel_to_snake isupper lower y) /\
  py "tokenId" <> py "token_id" /\
  camel_to_snake isupper lower (py "tokenId") = py "token_id" /\
  camel_to_snake isupper lower (py "token_id") = py "token_id" /\
  getitem clash_B (camel_to_snake isupper lower (py "tokenId"))
  = getitem clash_B (camel_to_snake isupper lower (py "token_id")) /\
  same_fields isupper lower clash_A clash_B = Ok [py "tokenId"; py "token_id"] /\
  differences isupper lower clash_A clash_B = Ok [] /\
  unmatched isupper lower clash_A clash_B = [].
Proof.
  assert (H1 : camel_to_snake isupper lower (py "tokenId") = py "token_id")
    by (rewrite camel_to_snake_ascii; [reflexivity|exact Hrows|reflexivity]).
  assert (H2 : camel_to_snake isupper lower (py "token_id") = py "token_id")
    by (rewrite camel_to_snake_ascii; [reflexivity|exact Hrows|reflexivity]).
  destruct (comparison_on_ascii isupper lower clash_A clash_B
              Hrows eq_refl eq_refl) as (-> & -> & ->).
  split.
  - exists (py "tokenId"), (py "token_id"). split; [discriminate|].
    now rewrite H1, H2.
  - rewrite H1, H2. repeat split; try discriminate; vm_compute; reflexivity.
Qed.

Lemma camel_to_snake_not_injective_witness :
  ascii_rows ascii_isupper ascii_lower /\
  camel_to_snake ascii_isupper ascii_lower (py "tokenId")
  = camel_to_snake ascii_isupper ascii_lower (py "token_id").
Proof.
  split; [exact ascii_rows_ascii|].
  destruct (camel_to_snake_not_injective ascii_isupper ascii_lower
              ascii_rows_ascii) as (_ & _ & H1 & H2 & _).
  exact (eq_trans H1 (eq_sym H2)).
Defined.

(** C10.  An underscore already in the name is kept: when an underscore is
    immediately followed by an upper-case character, the output has two
    underscores where the output of the part before ends.  So foo_Bar becomes
    foo__bar while fooBar becomes foo_bar, and a first dictionary with the
    key foo_Bar finds no counterpart foo_bar in the second, which the key
    fooBar does. *)
Theorem existing_underscore_is_doubled
  (isupper : pystr -> bool) (lower : pystr -> pystr)
  (p q : pystr) (c : codepoint)
  (Hrows : ascii_rows isupper lower)
  (Hc : isupper [c] = true) :
  camel_to_snake isupper lower (p ++ underscore :: c :: q)
  = camel_to_snake isupper lower p
    ++ [underscore; underscore] ++ lower [c] ++ snake_from isupper lower 1 q /\
  camel_to_snake isupper lower (py "foo_Bar") = py "foo__bar" /\
  camel_to_snake isupper lower (py "fooBar") = py "foo_bar" /\
  py "foo__bar" <> py "foo_bar" /\
  unmatched isupper lower mixed_A snake_B = [py "foo_Bar"] /\
  unmatched isupper lower camel_A snake_B = [] /\
  same_fields isupper lower camel_A snake_B = Ok [py "fooBar"].
Proof.
  split.
  - destruct (ascii_underscore isupper lower Hrows) as [Hu Hl].
    rewrite !camel_to_snake_unfold, snake_from_app. f_equal.
    cbn [snake_from]. rewrite Hu, Hl, Hc. simpl.
    do 2 f_equal. f_equal. apply snake_from_pos.
  - destruct (comparison_on_ascii isupper lower mixed_A snake_B
                Hrows eq_refl eq_refl) as (-> & _ & _).
    destruct (comparison_on_ascii isupper lower camel_A snake_B
                Hrows eq_refl eq_refl) as (-> & _ & ->).
    rewrite !(camel_to_snake_ascii isupper lower _ Hrows) by reflexivity.
    repeat split; try discriminate; vm_compute; reflexivity.
Qed.

Lemma existing_underscore_is_doubled_witness :
  ascii_rows ascii_isupper ascii_lower /\
  ascii_isupper [66%N] = true /\
  camel_to_snake ascii_isupper ascii_lower (py "foo" ++ underscore :: 66%N :: py "ar")
  = py "foo__bar".
Proof.
  split; [exact ascii_rows_ascii|]. split; [reflexivity|].
  destruct (existing_underscore_is_doubled ascii_isupper ascii_lower
              (py "foo") (py "ar") 66%N ascii_rows_ascii eq_refl) as [H _].
  rewrite H. reflexivity.
Defined.

(** * Further properties of compare_requests.py *)

(** ** The dictionary of line 59 *)

Lemma getitem_setitem_same (d : dict) (k : pystr) (v : value) :
  getitem (setitem d k v) k = Ok v.
Proof.
  induction d as [|[k' v'] d IH]; simpl.
  - now rewrite pystr_eqb_refl.
  - destruct (pystr_eqb k k') eqn:E; simpl; rewrite E; [reflexivity|exact IH].
Qed.

Lemma getitem_setitem_other (d : dict) (k k' : pystr) (v : value) :
  k <> k' -> getitem (setitem d k' v) k = getitem d k.
Proof.
  intros Hne. induction d as [|[k0 v0] d IH]; simpl.
  - apply pystr_eqb_neq in Hne. now rewrite Hne.
  - destruct (pystr_eqb k' k0) eqn:E; simpl.
    + apply pystr_eqb_eq in E. subst k0.
      apply pystr_eqb_neq in Hne. now rewrite Hne.
    + now rewrite IH.
Qed.

Lemma keys_setitem (d : dict) (k : pystr) (v : value) :
  keys (setitem d k v) = if contains k d then keys d else keys d ++ [k].
Proof.
  unfold contains. induction d as [|[k' v'] d IH]; simpl; [reflexivity|].
  destruct (pystr_eqb k k') eqn:E; simpl; [reflexivity|].
  unfold keys in *. rewrite IH.
  now destruct (existsb (pystr_eqb k) (map fst d)).
Qed.

Lemma contains_false (k : pystr) (d : dict) :
  contains k d = false <-> ~ In k (keys d).
Proof.
  rewrite <- contains_in. destruct (contains k d); split; congruence.
Qed.

Lemma getitem_absent (d : dict) (k : pystr) :
  contains k d = false -> getitem d k = KeyError k.
Proof.
  unfold contains. induction d as [|[k' v'] d IH]; simpl; [reflexivity|].
  destruct (pystr_eqb k k'); simpl; [discriminate|exact IH].
Qed.

(** The comprehension of line 59, started from a dictionary [d] that
    already maps some keys to their snake_case forms. *)
Lemma second_to_camel_from (isupper : pystr -> bool) (lower : pystr -> pystr)
  (ks : list pystr) : forall (d : dict) (k : pystr),
  getitem (fold_left (fun d k => setitem d k (VStr (camel_to_snake isupper lower k)))
                     ks d) k
  = if existsb (pystr_eqb k) ks then Ok (VStr (camel_to_snake isupper lower k))
    else getitem d k.
Proof.
  induction ks as [|k0 ks IH]; intros d k; simpl; [reflexivity|].
  rewrite IH. destruct (existsb (pystr_eqb k) ks); simpl.
  - now rewrite orb_true_r.
  - rewrite orb_false_r. destruct (pystr_eqb k k0) eqn:E.
    + apply pystr_eqb_eq in E. subst k0. apply getitem_setitem_same.
    + apply pystr_eqb_neq in E. now apply getitem_setitem_other.
Qed.

Lemma keys_second_to_camel_from (isupper : pystr -> bool) (lower : pystr -> pystr)
  (ks : list pystr) : forall (d : dict),
  NoDup (keys d ++ ks) ->
  keys (fold_left (fun d k => setitem d k (VStr (camel_to_snake isupper lower k)))
                  ks d)
  = keys d ++ ks.
Proof.
  induction ks as [|k0 ks IH]; intros d Hnd; simpl.
  - now rewrite app_nil_r.
  - assert (Hk0 : contains k0 d = false).
    { apply contains_false. intros Hin.
      apply NoDup_remove_2 in Hnd. apply Hnd. apply in_or_app. now left. }
    rewrite IH; rewrite keys_setitem, Hk0, <- app_assoc; [reflexivity|exact Hnd].
Qed.

(** X1.  The dictionary built at line 59 maps every key of the first
    dictionary to its snake_case form, and subscripting it with anything
    else raises [KeyError]. *)
Theorem second_to_camel_lookup
  (isupper : pystr -> bool) (lower : pystr -> pystr) (A : dict) (k : pystr) :
  getitem (second_to_camel isupper lower A) k
  = if contains k A then Ok (VStr (camel_to_snake isupper lower k))
    else KeyError k.
Proof.
  unfold second_to_camel. rewrite second_to_camel_from. reflexivity.
Qed.

(** X2.  When the keys of the first dictionary are distinct, as the keys of
    a dictionary are, the dictionary of line 59 has exactly these keys, in
    the same order. *)
Theorem second_to_camel_keys
  (isupper : pystr -> bool) (lower : pystr -> pystr) (A : dict)
  (Hkeys : NoDup (keys A)) :
  keys (second_to_camel isupper lower A) = keys A.
Proof.
  unfold second_to_camel. now rewrite keys_second_to_camel_from.
Qed.

Lemma second_to_camel_keys_witness :
  NoDup (keys example_A) /\
  keys (second_to_camel ascii_isupper ascii_lower example_A) = keys example_A.
Proof.
  assert (H : NoDup (keys example_A)).
  { repeat constructor; simpl; intuition discriminate. }
  split; [exact H|].
  exact (second_to_camel_keys ascii_isupper ascii_lower example_A H).
Defined.

(** ** The sorted report of lines 61-65 *)

Lemma pystr_leb_refl (a : pystr) : pystr_leb a a = true.
Proof.
  induction a as [|x a IH]; simpl; [reflexivity|].
  now rewrite N.ltb_irrefl.
Qed.

Lemma pystr_leb_total (a b : pystr) :
  pystr_leb a b = false -> pystr_leb b a = true.
Proof.
  revert b. induction a as [|x a IH]; intros [|y b]; simpl; try easy.
  destruct (N.ltb_spec x y); [discriminate|].
  destruct (N.ltb_spec y x); [reflexivity|]. apply IH.
Qed.

Lemma pystr_leb_antisym (a b : pystr) :
  pystr_leb a b = true -> pystr_leb b a = true -> a = b.
Proof.
  revert b. induction a as [|x a IH]; intros [|y b]; simpl; try easy.
  destruct (N.ltb_spec x y), (N.ltb_spec y x); try discriminate; try lia.
  intros H1 H2. f_equal; [lia|now apply IH].
Qed.

Lemma pystr_leb_trans (a b c : pystr) :
  pystr_leb a b = true -> pystr_leb b c = true -> pystr_leb a c = true.
Proof.
  revert b c. induction a as [|x a IH]; intros [|y b] [|z c]; simpl; try easy.
  destruct (N.ltb_spec x y), (N.ltb_spec y x), (N.ltb_spec y z),
    (N.ltb_spec z y), (N.ltb_spec x z), (N.ltb_spec z x);
    try discriminate; try lia; try reflexivity.
  apply IH.
Qed.

Lemma insert_sorted_ascending (x : pystr) (l : list pystr) :
  ascending l -> ascending (insert_sorted x l).
Proof.
  unfold ascending. induction l as [|y l IH]; intros H; simpl.
  - repeat constructor.
  - apply StronglySorted_inv in H as [Hl Hy].
    destruct (pystr_leb x y) eqn:E.
    + constructor; [now constructor|]. constructor; [exact E|].
      rewrite Forall_forall in *. intros z Hz.
      exact (pystr_leb_trans x y z E (Hy z Hz)).
    + constructor; [now apply IH|].
      rewrite Forall_forall in *. intros z Hz.
      apply (Permutation_in z (insert_sorted_perm x l)) in Hz as [<-|Hz].
      * now apply pystr_leb_total.
      * now apply Hy.
Qed.

Lemma sorted_ascending (l : list pystr) : ascending (sorted l).
Proof.
  induction l as [|x l IH]; simpl; [constructor|].
  now apply insert_sorted_ascending.
Qed.

Lemma ascending_unique (l : list pystr) : forall l',
  ascending l -> ascending l' -> Permutation l l' -> l = l'.
Proof.
  unfold ascending. induction l as [|a l IH]; intros l' Hl Hl' Hp.
  - apply Permutation_nil in Hp. now subst.
  - destruct l' as [|b l'];
      [apply Permutation_sym, Permutation_nil in Hp; discriminate|].
    apply StronglySorted_inv in Hl as [Hl Ha], Hl' as [Hl' Hb].
    rewrite Forall_forall in Ha, Hb.
    assert (Hab : a = b).
    { assert (H1 : In a (b :: l'))
        by (apply (Permutation_in a Hp); now left).
      assert (H2 : In b (a :: l))
        by (apply (Permutation_in b (Permutation_sym Hp)); now left).
      destruct H1 as [H1|H1]; [now subst|].
      destruct H2 as [H2|H2]; [now subst|].
      apply pystr_leb_antisym; [now apply Ha|now apply Hb]. }
    subst b. f_equal. apply IH; try assumption.
    exact (Permutation_cons_inv Hp).
Qed.

Lemma sorted_of_permutation (l l' : list pystr) :
  Permutation l l' -> sorted l = sorted l'.
Proof.
  intros Hp. apply ascending_unique; try apply sorted_ascending.
  rewrite (sorted_perm l), Hp. symmetry. apply sorted_perm.
Qed.


Lemma field_mapping_keys (isupper : pystr -> bool) (lower : pystr -> pystr)
  (A B : dict) :
  map (fun row => snd (fst row)) (field_mapping isupper lower A B)
  = sorted (keys A).
Proof. unfold field_mapping. rewrite map_map. simpl. apply map_id. Qed.

(** X3.  The report of lines 61-65 has one row per key of the first
    dictionary; its keys are those of the dictionary in ascending code-point
    order; and every row carries the snake_case form of its key and a tick
    exactly when that form is a key of the second dictionary. *)
Theorem field_mapping_rows_sorted
  (isupper : pystr -> bool) (lower : pystr -> pystr) (A B : dict) :
  let rows := field_mapping isupper lower A B in
  let row_keys := map (fun row => snd (fst row)) rows in
  List.length rows = List.length A /\
  ascending row_keys /\
  Permutation row_keys (keys A) /\
  forall mark fk snake,
    In (mark, fk, snake) rows ->
    In fk (keys A) /\
    snake = camel_to_snake isupper lower fk /\
    mark = contains snake B.
Proof.
  cbv zeta. rewrite field_mapping_keys. repeat split.
  - unfold field_mapping. rewrite length_map.
    rewrite (Permutation_length (sorted_perm (keys A))).
    unfold keys. apply length_map.
  - apply sorted_ascending.
  - apply sorted_perm.
  - unfold field_mapping in H. apply in_map_iff in H as (k & [= _ <- _] & Hk).
    exact (Permutation_in k (sorted_perm (keys A)) Hk).
  - unfold field_mapping in H. now apply in_map_iff in H as (k & [= _ <- <-] & Hk).
  - unfold field_mapping in H. apply in_map_iff in H as (k & [= <- _ <-] & Hk).
    apply set_contains_keys.
Qed.

(** X4.  The report does not depend on the order in which the two
    dictionaries were filled: two first dictionaries with the same keys in
    any order, and two second dictionaries with the same keys, give the same
    rows and the same unmatched keys. *)
Theorem field_mapping_order_independent
  (isupper : pystr -> bool) (lower : pystr -> pystr) (A A' B B' : dict)
  (HA : Permutation (keys A) (keys A'))
  (HB : Permutation (keys B) (keys B')) :
  field_mapping isupper lower A B = field_mapping isupper lower A' B' /\
  unmatched isupper lower A B = unmatched isupper lower A' B'.
Proof.
  assert (Hrows : field_mapping isupper lower A B
                  = field_mapping isupper lower A' B').
  { unfold field_mapping. rewrite (sorted_of_permutation _ _ HA).
    apply map_ext. intros k. rewrite !set_contains_keys.
    f_equal. f_equal.
    destruct (contains (camel_to_snake isupper lower k) B) eqn:E; symmetry.
    - apply contains_in. apply contains_in in E.
      exact (Permutation_in _ HB E).
    - apply contains_false. apply contains_false in E. intros H. apply E.
      exact (Permutation_in _ (Permutation_sym HB) H). }
  split; [exact Hrows|]. unfold unmatched. now rewrite Hrows.
Qed.

Lemma field_mapping_order_independent_witness :
  Permutation (keys example_A) (keys (rev example_A)) /\
  Permutation (keys example_B) (keys (rev example_B)) /\
  field_mapping ascii_isupper ascii_lower example_A example_B
  = field_mapping ascii_isupper ascii_lower (rev example_A) (rev example_B).
Proof.
  assert (HA : Permutation (keys example_A) (keys (rev example_A)))
    by apply perm_swap.
  assert (HB : Permutation (keys example_B) (keys (rev example_B)))
    by apply perm_swap.
  split; [exact HA|]. split; [exact HB|].
  exact (proj1 (field_mapping_order_independent ascii_isupper ascii_lower
                  example_A (rev example_A) example_B (rev example_B) HA HB)).
Defined.

(** ** Order and multiplicity in the three lists *)



(** X6.  When the keys of the first dictionary are distinct, no key is
    reported twice: the unmatched, mismatched and matched keys, put
    together, have no repetition. *)
Theorem no_key_reported_twice
  (isupper : pystr -> bool) (lower : pystr -> pystr) (A B : dict)
  (D : list difference) (S : list pystr)
  (Hkeys : NoDup (keys A))
  (HD : differences isupper lower A B = Ok D)
  (HS : same_fields isupper lower A B = Ok S) :
  NoDup (unmatched isupper lower A B ++ map difference_key D ++ S).
Proof.
  rewrite differences_ok in HD. rewrite same_fields_ok in HS.
  injection HD as <-. injection HS as <-.
  rewrite unmatched_ok, difference_keys_ok.
  apply (Permutation_NoDup (l := keys A)); [|exact Hkeys].
  symmetry.
  rewrite (filter_perm (is_unmatched isupper lower B) _ _ (sorted_perm (keys A))).
  apply three_way_split. apply one_outcome.
Qed.

Lemma no_key_reported_twice_witness :
  NoDup (keys example_A) /\
  NoDup (unmatched ascii_isupper ascii_lower example_A example_B
         ++ map difference_key [(py "price", py "price", str "0.01", str "0.02")]
         ++ [py "maker"]).
Proof.
  assert (H : NoDup (keys example_A)).
  { repeat constructor; simpl; intuition discriminate. }
  split; [exact H|].
  exact (no_key_reported_twice ascii_isupper ascii_lower example_A example_B
           [(py "price", py "price", str "0.01", str "0.02")] [py "maker"]
           H eq_refl eq_refl).
Defined.

(** ** More on the case normaliser *)

(** X8.  The empty name gives the empty name; a one-character name is just
    lower-cased, upper-case or not; the output always starts with the
    lower-case form of the first character, never with an inserted
    underscore; and what a non-empty prefix contributes does not influence
    what the rest of the name contributes. *)
Theorem camel_to_snake_edges
  (isupper : pystr -> bool) (lower : pystr -> pystr) :
  camel_to_snake isupper lower [] = [] /\
  (forall c, camel_to_snake isupper lower [c] = lower [c]) /\
  (forall c s, exists t, camel_to_snake isupper lower (c :: s) = lower [c] ++ t) /\
  (forall q, exists t, forall c p,
      camel_to_snake isupper lower ((c :: p) ++ q)
      = camel_to_snake isupper lower (c :: p) ++ t).
Proof.
  split; [reflexivity|]. split; [|split].
  - intros c. rewrite camel_to_snake_unfold. simpl.
    destruct (isupper [c]); simpl; apply app_nil_r.
  - intros c s. rewrite camel_to_snake_unfold. simpl.
    exists (snake_from isupper lower 1 s). now destruct (isupper [c]).
  - intros q. exists (snake_from isupper lower 1 q). intros c p.
    rewrite !camel_to_snake_unfold, snake_from_app. f_equal.
    apply snake_from_pos.
Qed.

(** * Properties of test_sdk_advanced.py and test_sdk.py *)

(** ** The result tracker *)

Import TestSdkAdvanced.

Lemma count_status_app (status : pystr) (rs rs' : list dict) :
  count_status status (rs ++ rs') = count_status status rs + count_status status rs'.
Proof. unfold count_status. now rewrite filter_app, length_app. Qed.

Lemma results_apply_call (r : TestResult) (c : call) :
  exists rec,
    results (apply_call r c) = results r ++ [rec] /\
    getitem rec (py "test") = Ok (VStr (call_name c)) /\
    getitem rec (py "status") = Ok (VStr (call_status c)).
Proof.
  destruct c; simpl; eexists; (split; [reflexivity|]); split; reflexivity.
Qed.

Lemma count_status_apply_call (status : pystr) (r : TestResult) (c : call) :
  count_status status (results (apply_call r c))
  = count_status status (results r)
    + if pystr_eqb (call_status c) status then 1 else 0.
Proof.
  destruct (results_apply_call r c) as (rec & -> & _ & Hs).
  rewrite count_status_app. f_equal. unfold count_status. simpl.
  rewrite Hs. simpl. now destruct (pystr_eqb (call_status c) status).
Qed.

Lemma consistent_apply_call (r : TestResult) (c : call) :
  consistent r -> consistent (apply_call r c).
Proof.
  intros (Hp & Hf & Hs & Ht). unfold consistent, total in *.
  rewrite !count_status_apply_call.
  destruct (results_apply_call r c) as (rec & -> & _).
  rewrite length_app. simpl.
  destruct c; simpl; repeat split; lia.
Qed.

Lemma consistent_run (calls : list call) : forall r,
  consistent r -> consistent (run calls r).
Proof.
  induction calls as [|c calls IH]; intros r H; [exact H|].
  apply IH. now apply consistent_apply_call.
Qed.

Lemma failed_run (calls : list call) : forall r,
  failed (run calls r) = failed r + List.length (filter is_fail calls).
Proof.
  induction calls as [|c calls IH]; intros r; [simpl; lia|].
  change (run (c :: calls) r) with (run calls (apply_call r c)).
  rewrite IH. destruct c; simpl; lia.
Qed.

Lemma results_run (calls : list call) : forall r,
  exists tail,
    results (run calls r) = results r ++ tail /\
    map (fun rec => getitem rec (py "test")) tail
    = map (fun c => Ok (VStr (call_name c))) calls /\
    map (fun rec => getitem rec (py "status")) tail
    = map (fun c => Ok (VStr (call_status c))) calls.
Proof.
  induction calls as [|c calls IH]; intros r.
  - exists []. simpl. now rewrite app_nil_r.
  - change (run (c :: calls) r) with (run calls (apply_call r c)).
    destruct (IH (apply_call r c)) as (tail & Hr & Ht & Hs).
    destruct (results_apply_call r c) as (rec & Hrec & Hn & Hst).
    exists (rec :: tail). rewrite Hr, Hrec, <- app_assoc.
    simpl. now rewrite Hn, Hst, Ht, Hs.
Qed.


Lemma run_init_consistent (calls : list call) :
  consistent (run calls init).
Proof. apply consistent_run. now repeat split. Qed.

(** X9.  Whatever sequence of [add_pass], [add_fail] and [add_skip] calls a
    fresh tracker receives, each counter equals the number of recorded
    results with its status, and the total of [summary] equals the number of
    recorded results. *)
Theorem counters_match_results (calls : list call) :
  let r := run calls init in
  passed r = count_status (py "PASS") (results r) /\
  failed r = count_status (py "FAIL") (results r) /\
  skipped r = count_status (py "SKIP") (results r) /\
  total r = List.length (results r).
Proof. exact (run_init_consistent calls). Qed.

(** X10.  [summary] of a tracker that started fresh returns [True] exactly
    when [add_fail] was never called, which is exactly when no recorded
    result has the status FAIL; skipped tests do not make it [False]. *)
Theorem summary_true_iff_no_failure (calls : list call) :
  let r := run calls init in
  summary r = forallb (fun c => negb (is_fail c)) calls /\
  (summary r = true <-> count_status (py "FAIL") (results r) = 0).
Proof.
  cbv zeta. split.
  - unfold summary. rewrite failed_run. simpl.
    induction calls as [|c calls IH]; [reflexivity|].
    simpl. destruct (is_fail c); simpl; [reflexivity|exact IH].
  - destruct (run_init_consistent calls) as (_ & <- & _).
    unfold summary. apply Nat.eqb_eq.
Qed.

(** X11.  The recording methods only ever append: after any sequence of
    calls the earlier results are still there, unchanged and in place, and
    they are followed by one result per call, in call order, each with the
    test name and the status of its call. *)
Theorem results_are_appended_in_call_order (calls : list call) (r : TestResult) :
  exists tail,
    results (run calls r) = results r ++ tail /\
    List.length tail = List.length calls /\
    map (fun rec => getitem rec (py "test")) tail
    = map (fun c => Ok (VStr (call_name c))) calls /\
    map (fun rec => getitem rec (py "status")) tail
    = map (fun c => Ok (VStr (call_status c))) calls.
Proof.
  destruct (results_run calls r) as (tail & Hr & Hn & Hs).
  exists tail. repeat split; try assumption.
  apply (f_equal (@List.length _)) in Hn. now rewrite !length_map in Hn.
Qed.

(** X12.  In what [save_results] writes for a tracker that started fresh,
    the summary is consistent with the list of tests: the total is the
    number of tests, and the three counts are the numbers of tests with the
    statuses PASS, FAIL and SKIP. *)
Theorem saved_summary_matches_tests (timestamp : pystr) (calls : list call) :
  let o := save_results_output timestamp (run calls init) in
  let count status := VInt (Z.of_nat (count_status (py status) (output_tests o))) in
  getitem (output_summary o) (py "total")
  = Ok (VInt (Z.of_nat (List.length (output_tests o)))) /\
  getitem (output_summary o) (py "passed") = Ok (count "PASS"%string) /\
  getitem (output_summary o) (py "failed") = Ok (count "FAIL"%string) /\
  getitem (output_summary o) (py "skipped") = Ok (count "SKIP"%string).
Proof.
  destruct (run_init_consistent calls) as (Hp & Hf & Hs & Ht).
  cbv zeta. unfold save_results_output. cbn [output_summary output_tests].
  rewrite <- Hp, <- Hf, <- Hs, <- Ht. unfold total.
  repeat split.
Qed.

(** ** The environment check of test_sdk_advanced.py *)

Lemma test_environment_step (env : environ) (flag : bool) (r : TestResult)
  (item : pystr * pystr) :
  exists c,
    test_environment_body env (flag, r) item
    = (flag && present env item, apply_call r c) /\
    call_status c = if present env item then py "PASS" else py "FAIL".
Proof.
  destruct item as [var desc]. unfold test_environment_body, present. simpl.
  destruct (env var) as [[|c rest]|]; simpl.
  - eexists (AddFail _ _). rewrite andb_false_r. now split.
  - eexists (AddPass _ _). rewrite andb_true_r. now split.
  - eexists (AddFail _ _). rewrite andb_false_r. now split.
Qed.

Lemma test_environment_loop (env : environ) (items : list (pystr * pystr)) :
  forall (flag : bool) (r : TestResult),
  exists calls,
    fold_left (test_environment_body env) items (flag, r)
    = (flag && forallb (present env) items, run calls r) /\
    map call_status calls
    = map (fun i => if present env i then py "PASS" else py "FAIL") items.
Proof.
  induction items as [|item items IH]; intros flag r.
  - exists []. simpl. now rewrite andb_true_r.
  - destruct (test_environment_step env flag r item) as (c & Hstep & Hc).
    destruct (IH (flag && present env item) (apply_call r c)) as (calls & Hl & Hm).
    exists (c :: calls). cbn [fold_left]. rewrite Hstep, Hl. split.
    + simpl. now rewrite andb_assoc.
    + simpl. now rewrite Hc, Hm.
Qed.




(** ** What is recorded of a key *)

Lemma fold_left_agree {S I : Type} (f g : S -> I -> S) (items : list I) :
  (forall st item, In item items -> f st item = g st item) ->
  forall st, fold_left f items st = fold_left g items st.
Proof.
  induction items as [|item items IH]; intros H st; [reflexivity|].
  simpl. rewrite (H st item (or_introl eq_refl)).
  apply IH. intros st' item' Hin. apply H. now right.
Qed.

Lemma test_environment_same_display (env : environ) (var a a' : pystr)
  (r : TestResult) :
  a <> [] -> a' <> [] ->
  display_value var a = display_value var a' ->
  test_environment (setenv env var a) r = test_environment (setenv env var a') r.
Proof.
  intros Ha Ha' Hd. unfold test_environment. apply fold_left_agree.
  intros [flag r'] [v desc] _. unfold test_environment_body, setenv.
  destruct (pystr_eqb v var) eqn:E; [|reflexivity].
  apply pystr_eqb_eq in E. subst v.
  destruct a as [|c rest]; [contradiction|].
  destruct a' as [|c' rest']; [contradiction|].
  cbv zeta. now rewrite Hd.
Qed.

Lemma longer_than_nonempty (n : nat) (a : pystr) : n < List.length a -> a <> [].
Proof. intros H ->. simpl in H. lia. Qed.

(** X14.  Of a value longer than ten characters of a variable whose name
    contains KEY (API_KEY and PRIVATE_KEY among the eight), the environment
    check records only the first six and the last four characters: two
    such values that agree on these give the same flag and the same
    tracker, whatever lies between and however long they are. *)
Theorem long_key_recorded_by_its_ends_only
  (env : environ) (var a a' : pystr) (r : TestResult)
  (Hvar : has_substring (py "KEY") var = true)
  (Ha : 10 < List.length a)
  (Ha' : 10 < List.length a')
  (Hfirst : slice_to 6 a = slice_to 6 a')
  (Hlast : slice_last 4 a = slice_last 4 a') :
  test_environment (setenv env var a) r = test_environment (setenv env var a') r.
Proof.
  apply test_environment_same_display;
    try (eapply longer_than_nonempty; eassumption).
  unfold display_value. rewrite Hvar.
  apply Nat.ltb_lt in Ha, Ha'. now rewrite Ha, Ha', Hfirst, Hlast.
Qed.

Lemma long_key_recorded_by_its_ends_only_witness :
  has_substring (py "KEY") (py "PRIVATE_KEY") = true /\
  10 < List.length (py "0xabcd1111111111111111ef01") /\
  10 < List.length (py "0xabcd22222222ef01") /\
  test_environment (setenv (fun _ => None) (py "PRIVATE_KEY")
                      (py "0xabcd1111111111111111ef01")) init
  = test_environment (setenv (fun _ => None) (py "PRIVATE_KEY")
                        (py "0xabcd22222222ef01")) init.
Proof.
  split; [reflexivity|].
  assert (H1 : 10 < List.length (py "0xabcd1111111111111111ef01"))
    by (apply Nat.ltb_lt; reflexivity).
  assert (H2 : 10 < List.length (py "0xabcd22222222ef01"))
    by (apply Nat.ltb_lt; reflexivity).
  split; [exact H1|]. split; [exact H2|].
  exact (long_key_recorded_by_its_ends_only (fun _ => None) (py "PRIVATE_KEY")
           (py "0xabcd1111111111111111ef01") (py "0xabcd22222222ef01") init
           eq_refl H1 H2 eq_refl eq_refl).
Defined.

(** X15.  Of a non-empty value of at most ten characters of a variable
    whose name contains KEY nothing is recorded but three asterisks: any two
    such values give the same flag and the same tracker. *)
Theorem short_key_not_recorded
  (env : environ) (var a a' : pystr) (r : TestResult)
  (Hvar : has_substring (py "KEY") var = true)
  (Ha : 0 < List.length a <= 10)
  (Ha' : 0 < List.length a' <= 10) :
  test_environment (setenv env var a) r = test_environment (setenv env var a') r.
Proof.
  apply test_environment_same_display.
  - eapply longer_than_nonempty. apply Ha.
  - eapply longer_than_nonempty. apply Ha'.
  - unfold display_value. rewrite Hvar.
    assert (E : (10 <? List.length a) = false) by (apply Nat.ltb_ge; lia).
    assert (E' : (10 <? List.length a') = false) by (apply Nat.ltb_ge; lia).
    now rewrite E, E'.
Qed.

Lemma short_key_not_recorded_witness :
  has_substring (py "KEY") (py "API_KEY") = true /\
  test_environment (setenv (fun _ => None) (py "API_KEY") (py "secret")) init
  = test_environment (setenv (fun _ => None) (py "API_KEY") (py "hunter2")) init.
Proof.
  split; [reflexivity|].
  apply (short_key_not_recorded (fun _ => None) (py "API_KEY")
           (py "secret") (py "hunter2") init eq_refl); simpl; lia.
Defined.

(** ** The environment checks of the two test scripts *)

Lemma filter_none {X : Type} (p : X -> bool) (l : list X) :
  (forall x, In x l -> p x = false) -> filter p l = [].
Proof.
  induction l as [|x l IH]; intros H; simpl; [reflexivity|].
  rewrite (H x (or_introl eq_refl)). apply IH. intros y Hy. apply H. now right.
Qed.

Lemma basic_vars_among_advanced (var : pystr) :
  In var TestSdk.required_vars -> In var (map fst required_vars).
Proof.
  intros H. apply existsb_eqb_in.
  assert (Hall : forallb (fun v => existsb (pystr_eqb v) (map fst required_vars))
                         TestSdk.required_vars = true) by reflexivity.
  rewrite forallb_forall in Hall. now apply Hall.
Qed.

(** X16.  The environment check of test_sdk_advanced.py is at least as
    strict as that of test_sdk.py: when [test_environment] returns [True],
    [main] of test_sdk.py finds no variable missing and does not return
    early. *)
Theorem advanced_check_covers_basic (env : environ) (r : TestResult)
  (Hok : fst (test_environment env r) = true) :
  TestSdk.missing_vars env = [] /\ TestSdk.main_environment_check env = None.
Proof.
  assert (Hmissing : TestSdk.missing_vars env = []).
  { unfold test_environment in Hok.
    destruct (test_environment_loop env required_vars true r) as (calls & E & _).
    rewrite E in Hok. cbn [fst andb] in Hok.
    rewrite forallb_forall in Hok.
    unfold TestSdk.missing_vars. apply filter_none. intros var Hvar.
    apply basic_vars_among_advanced, in_map_iff in Hvar as (item & <- & Hitem).
    apply negb_false_iff. exact (Hok item Hitem). }
  split; [exact Hmissing|].
  unfold TestSdk.main_environment_check. now rewrite Hmissing.
Qed.

Lemma advanced_check_covers_basic_witness :
  fst (test_environment (fun _ => Some (py "x")) init) = true /\
  TestSdk.main_environment_check (fun _ => Some (py "x")) = None.
Proof.
  split; [reflexivity|].
  exact (proj2 (advanced_check_covers_basic (fun _ => Some (py "x")) init eq_refl)).
Defined.

(** X17.  [main] of test_sdk.py returns 1 before any call of the SDK exactly
    when one of its six variables is unset or set to the empty string, and
    goes on exactly when all six are set to non-empty strings; the converse
    of the previous property fails, since the two contract addresses are
    not among the six. *)
Theorem basic_check_returns_1_iff_missing (env : environ) :
  (TestSdk.main_environment_check env = Some 1%Z <->
   exists var, In var TestSdk.required_vars /\ truthy (env var) = false) /\
  (TestSdk.main_environment_check env = None <->
   forall var, In var TestSdk.required_vars -> truthy (env var) = true) /\
  (forall var, In var (TestSdk.missing_vars env) <->
               In var TestSdk.required_vars /\ truthy (env var) = false) /\
  exists env', TestSdk.main_environment_check env' = None /\
               fst (test_environment env' init) = false.
Proof.
  assert (Hin : forall var, In var (TestSdk.missing_vars env) <->
                  In var TestSdk.required_vars /\ truthy (env var) = false).
  { intros var. unfold TestSdk.missing_vars. rewrite filter_In.
    now rewrite negb_true_iff. }
  unfold TestSdk.main_environment_check.
  split; [|split; [|split; [exact Hin|]]].
  - destruct (TestSdk.missing_vars env) as [|v l] eqn:E.
    + split; [discriminate|]. intros (var & Hvar). apply Hin in Hvar. contradiction.
    + split; [|reflexivity]. intros _. exists v. apply Hin. now left.
  - destruct (TestSdk.missing_vars env) as [|v l] eqn:E.
    + split; [|reflexivity]. intros _ var Hvar.
      destruct (truthy (env var)) eqn:T; [reflexivity|].
      exfalso. apply (proj2 (Hin var)); now split.
    + split; [discriminate|]. intros H.
      destruct (proj1 (Hin v) (or_introl eq_refl)) as [Hv T].
      rewrite (H v Hv) in T. discriminate.
  - exists (fun v => if existsb (pystr_eqb v) TestSdk.required_vars
                     then Some (py "x") else None).
    split; reflexivity.
Qed.

(** ** The closing lines of compare_requests.py *)

(** X18.  The closing report names at most ten matched fields, the first
    ten in the order of the list.  With ten fields or fewer it is one line
    naming them all; with more it names the first ten only and adds one line
    with the number of all matched fields, so the count line appears exactly
    when some field is left out. *)
Theorem same_fields_lines_name_ten (S : list pystr) :
  (List.length S <= 10 ->
   same_fields_lines S = [same_fields_header ++ join_with (py ", ") S]) /\
  (10 < List.length S ->
   exists shown hidden count_line,
     S = shown ++ hidden /\ List.length shown = 10 /\ hidden <> [] /\
     same_fields_lines S
     = [same_fields_header ++ join_with (py ", ") shown; count_line] /\
     count_line
     = py "   ... " ++ [31561; 20849]%N
       ++ py_str (VInt (Z.of_nat (List.length S))) ++ [20010; 23383; 27573]%N).
Proof.
  unfold same_fields_lines, slice_to. split; intros H.
  - rewrite firstn_all2 by exact H.
    assert (E : (10 <? List.length S) = false) by (apply Nat.ltb_ge; lia).
    now rewrite E.
  - assert (E : (10 <? List.length S) = true) by (now apply Nat.ltb_lt).
    rewrite E. exists (firstn 10 S), (skipn 10 S). eexists.
    split; [now rewrite firstn_skipn|].
    split; [rewrite length_firstn; lia|].
    split; [|split; reflexivity].
    intros Hnil. apply (f_equal (@List.length _)) in Hnil.
    rewrite length_skipn in Hnil. simpl in Hnil. lia.
Qed.

Example same_fields_lines_of_the_script :
  exists S, same_fields ascii_isupper ascii_lower first second = Ok S /\
            List.length S = 17 /\
            List.length (same_fields_lines S) = 2 /\
            nth 1 (same_fields_lines S) []
            = py "   ... " ++ [31561; 20849]%N ++ py "17" ++ [20010; 23383; 27573]%N.
Proof. eexists. split; [vm_compute; reflexivity|]. repeat split. Qed.

(** * The script under the interpreter's exceptions *)

Section Limits.

Variable isupper : pystr -> bool.
Variable lower : pystr -> pystr.
Variable max_digits : nat.
Variables A B : dict.

Lemma subscript_ok (d : dict) (k : pystr) (v : value) :
  getitem d k = Ok v -> subscript d k = Done v.
Proof. intros H. unfold subscript. now rewrite H. Qed.

Lemma subscript_absent (d : dict) (k : pystr) :
  contains k d = false -> subscript d k = Raise (ExcKeyError k).
Proof. intros H. unfold subscript. now rewrite (getitem_absent d k H). Qed.

Lemma str_limited_cases (v : value) :
  str_limited max_digits v = Done (py_str v) \/
  str_limited max_digits v = Raise ExcValueError.
Proof.
  destruct v as [s|z]; simpl; [now left|].
  destruct ((0 <? max_digits) && (max_digits <? int_digits z)); [now right|now left].
Qed.

Lemma str_limited_within (d : dict) (k : pystr) (v : value) :
  within_digit_limit max_digits d = true -> In (k, v) d ->
  str_limited max_digits v = Done (py_str v).
Proof.
  unfold within_digit_limit. rewrite forallb_forall. intros H Hin.
  specialize (H (k, v) Hin). simpl in H.
  destruct v as [s|z]; simpl; [reflexivity|].
  apply negb_true_iff in H. now rewrite H.
Qed.

Lemma for_each_exec_appends {X Y : Type} (body : list Y -> X -> exec (list Y))
  (f : X -> list Y) (xs : list X) :
  (forall x, In x xs -> forall acc, body acc x = Done (acc ++ f x)) ->
  forall acc, for_each_exec body xs acc = Done (acc ++ flat_map f xs).
Proof.
  induction xs as [|x xs IH]; intros H acc; simpl.
  - now rewrite app_nil_r.
  - rewrite (H x (or_introl eq_refl)). simpl.
    rewrite IH by (intros y Hy; apply H; now right).
    now rewrite app_assoc.
Qed.

(** A loop whose passes either append or raise [ValueError] does one or
    the other as a whole. *)
Lemma for_each_exec_appends_or_raises {X Y : Type}
  (body : list Y -> X -> exec (list Y)) (f : X -> list Y) (xs : list X) :
  (forall x, In x xs -> forall acc,
     body acc x = Done (acc ++ f x) \/ body acc x = Raise ExcValueError) ->
  forall acc, for_each_exec body xs acc = Done (acc ++ flat_map f xs) \/
              for_each_exec body xs acc = Raise ExcValueError.
Proof.
  induction xs as [|x xs IH]; intros H acc; simpl.
  - left. now rewrite app_nil_r.
  - destruct (H x (or_introl eq_refl) acc) as [-> | ->]; simpl; [|now right].
    destruct (IH (fun y Hy => H y (or_intror Hy)) (acc ++ f x)) as [-> | ->];
      [left; now rewrite app_assoc|now right].
Qed.

Hypothesis within_A : within_digit_limit max_digits A = true.
Hypothesis within_B : within_digit_limit max_digits B = true.

Lemma differences_body_checked_ok (k : pystr) (acc : list difference) :
  In k (keys A) ->
  differences_body_checked isupper lower max_digits A B acc k
  = Done (acc ++ difference_of isupper lower A B k).
Proof.
  intros Hk. unfold differences_body_checked, difference_of.
  destruct (key_cases isupper lower A B k Hk)
    as [[E ->]|(a & b & E & Ha & Hb & ->)];
    rewrite E; [now rewrite app_nil_r|].
  rewrite (subscript_ok A _ _ Ha), (subscript_ok B _ _ Hb). cbn [exec_bind].
  rewrite (str_limited_within A k a within_A (getitem_in _ _ _ Ha)).
  rewrite (str_limited_within B _ b within_B (getitem_in _ _ _ Hb)).
  cbn [exec_bind].
  destruct (pystr_eqb (lower (py_str a)) (lower (py_str b))); simpl;
    [now rewrite app_nil_r|reflexivity].
Qed.

Lemma same_fields_body_checked_ok (k : pystr) (acc : list pystr) :
  In k (keys A) ->
  same_fields_body_checked isupper lower max_digits A B acc k
  = Done (acc ++ if is_matched isupper lower A B k then [k] else []).
Proof.
  intros Hk. unfold same_fields_body_checked, is_matched.
  destruct (key_cases isupper lower A B k Hk)
    as [[E ->]|(a & b & E & Ha & Hb & ->)];
    rewrite E; [now rewrite app_nil_r|].
  rewrite (subscript_ok A _ _ Ha), (subscript_ok B _ _ Hb). cbn [exec_bind].
  rewrite (str_limited_within A k a within_A (getitem_in _ _ _ Ha)).
  rewrite (str_limited_within B _ b within_B (getitem_in _ _ _ Hb)).
  cbn [exec_bind].
  destruct (pystr_eqb (lower (py_str a)) (lower (py_str b))); simpl;
    [reflexivity|now rewrite app_nil_r].
Qed.

Lemma differences_checked_ok :
  differences_checked isupper lower max_digits A B
  = Done (flat_map (difference_of isupper lower A B) (keys A)).
Proof.
  unfold differences_checked.
  rewrite (for_each_exec_appends _ (difference_of isupper lower A B));
    [reflexivity|].
  intros k Hk acc. now apply differences_body_checked_ok.
Qed.

Lemma same_fields_checked_ok :
  same_fields_checked isupper lower max_digits A B
  = Done (filter (is_matched isupper lower A B) (keys A)).
Proof.
  unfold same_fields_checked. rewrite <- flat_map_filter.
  rewrite (for_each_exec_appends _
             (fun k => if is_matched isupper lower A B k then [k] else []));
    [reflexivity|].
  intros k Hk acc. now apply same_fields_body_checked_ok.
Qed.

End Limits.

(** Whatever the integers, the comparison loops raise nothing but the
    [ValueError] of [str]: no subscript of theirs fails. *)
Lemma comparison_raises_only_value_error
  (isupper : pystr -> bool) (lower : pystr -> pystr) (max_digits : nat)
  (A B : dict) :
  (differences_checked isupper lower max_digits A B
   = Done (flat_map (difference_of isupper lower A B) (keys A)) \/
   differences_checked isupper lower max_digits A B = Raise ExcValueError) /\
  (same_fields_checked isupper lower max_digits A B
   = Done (filter (is_matched isupper lower A B) (keys A)) \/
   same_fields_checked isupper lower max_digits A B = Raise ExcValueError).
Proof.
  split.
  - unfold differences_checked.
    apply (for_each_exec_appends_or_raises _ (difference_of isupper lower A B)).
    intros k Hk acc. unfold differences_body_checked, difference_of.
    destruct (key_cases isupper lower A B k Hk)
      as [[E ->]|(a & b & E & Ha & Hb & ->)];
      rewrite E; [left; now rewrite app_nil_r|].
    rewrite (subscript_ok A _ _ Ha), (subscript_ok B _ _ Hb). cbn [exec_bind].
    destruct (str_limited_cases max_digits a) as [-> | ->]; [|now right].
    cbn [exec_bind].
    destruct (str_limited_cases max_digits b) as [-> | ->]; [|now right].
    cbn [exec_bind]. left.
    destruct (pystr_eqb (lower (py_str a)) (lower (py_str b))); simpl;
      [now rewrite app_nil_r|reflexivity].
  - unfold same_fields_checked. rewrite <- flat_map_filter.
    apply (for_each_exec_appends_or_raises _
             (fun k => if is_matched isupper lower A B k then [k] else [])).
    intros k Hk acc. unfold same_fields_body_checked, is_matched.
    destruct (key_cases isupper lower A B k Hk)
      as [[E ->]|(a & b & E & Ha & Hb & ->)];
      rewrite E; [left; now rewrite app_nil_r|].
    rewrite (subscript_ok A _ _ Ha), (subscript_ok B _ _ Hb). cbn [exec_bind].
    destruct (str_limited_cases max_digits a) as [-> | ->]; [|now right].
    cbn [exec_bind].
    destruct (str_limited_cases max_digits b) as [-> | ->]; [|now right].
    cbn [exec_bind]. left.
    destruct (pystr_eqb (lower (py_str a)) (lower (py_str b))); simpl;
      [reflexivity|now rewrite app_nil_r].
Qed.

(** C7, as amended.  When no integer value of the two dictionaries has more
    decimal digits than the interpreter's limit for [str] (there is none
    when the limit is 0), the comparison raises nothing: both loops run to
    the end, with the lists of the model without exceptions, and every key
    of the first dictionary is put in one of the three outcome sets.  The
    keys are arbitrary strings, on all of which the normaliser is defined. *)
Theorem comparison_never_raises_within_digit_limit
  (isupper : pystr -> bool) (lower : pystr -> pystr) (max_digits : nat)
  (A B : dict)
  (HA : within_digit_limit max_digits A = true)
  (HB : within_digit_limit max_digits B = true) :
  exists (D : list difference) (S : list pystr),
    differences_checked isupper lower max_digits A B = Done D /\
    same_fields_checked isupper lower max_digits A B = Done S /\
    differences isupper lower A B = Ok D /\
    same_fields isupper lower A B = Ok S /\
    forall k, In k (keys A) ->
              In k (unmatched isupper lower A B) \/
              In k (map difference_key D) \/ In k S.
Proof.
  exists (flat_map (difference_of isupper lower A B) (keys A)),
         (filter (is_matched isupper lower A B) (keys A)).
  split; [now apply differences_checked_ok|].
  split; [now apply same_fields_checked_ok|].
  split; [apply differences_ok|]. split; [apply same_fields_ok|].
  intros k Hk. rewrite unmatched_ok, difference_keys_ok, !filter_In.
  assert (Hs : In k (sorted (keys A)))
    by (apply (Permutation_in k (Permutation_sym (sorted_perm (keys A)))), Hk).
  destruct (one_outcome isupper lower A B k Hk) as [H|[H|H]];
    destruct H as (H1 & H2 & H3); tauto.
Qed.

Lemma comparison_never_raises_within_digit_limit_witness :
  within_digit_limit 4300 example_A = true /\
  within_digit_limit 4300 example_B = true /\
  exists (D : list difference) (S : list pystr),
    differences_checked ascii_isupper ascii_lower 4300 example_A example_B
    = Done D /\
    same_fields_checked ascii_isupper ascii_lower 4300 example_A example_B
    = Done S.
Proof.
  split; [reflexivity|]. split; [reflexivity|].
  destruct (comparison_never_raises_within_digit_limit
              ascii_isupper ascii_lower 4300 example_A example_B
              eq_refl eq_refl)
    as (D & S & HD & HS & _).
  exists D, S. split; [exact HD|exact HS].
Defined.

Lemma digits_of_long_integer : int_digits (10 ^ 4300) = 4301.
Proof. vm_compute. reflexivity. Qed.

(** An integer past the limit under a key whose snake_case form is in the
    second dictionary stops both loops in their first pass. *)
Lemma long_integer_raises
  (isupper : pystr -> bool) (lower : pystr -> pystr) (max_digits : nat)
  (k : pystr) (z : Z) (v : value) :
  0 < max_digits -> max_digits < int_digits z ->
  differences_checked isupper lower max_digits
    [(k, VInt z)] [(camel_to_snake isupper lower k, v)] = Raise ExcValueError /\
  same_fields_checked isupper lower max_digits
    [(k, VInt z)] [(camel_to_snake isupper lower k, v)] = Raise ExcValueError.
Proof.
  intros H0 Hz.
  assert (E : (0 <? max_digits) && (max_digits <? int_digits z) = true).
  { apply andb_true_intro. split; now apply Nat.ltb_lt. }
  unfold differences_checked, same_fields_checked,
    differences_body_checked, same_fields_body_checked, contains, subscript.
  cbn [keys map fst for_each_exec existsb getitem].
  rewrite !pystr_eqb_refl. cbn [orb exec_bind str_limited]. rewrite E.
  now split.
Qed.

(** C7 as stated fails on a long integer: with the default limit of 4300
    digits, [str] of 10 ** 4300 (4301 digits) raises [ValueError] in the
    first pass of the loop of lines 71-77, the key being present in both
    dictionaries. *)
Lemma comparison_raises_on_long_integer :
  int_digits (10 ^ 4300) = 4301 /\
  camel_to_snake ascii_isupper ascii_lower (py "nonce") = py "nonce" /\
  differences_checked ascii_isupper ascii_lower 4300
    [(py "nonce", VInt (10 ^ 4300))] [(py "nonce", VInt 0)]
  = Raise ExcValueError /\
  same_fields_checked ascii_isupper ascii_lower 4300
    [(py "nonce", VInt (10 ^ 4300))] [(py "nonce", VInt 0)]
  = Raise ExcValueError.
Proof.
  split; [exact digits_of_long_integer|].
  split; [reflexivity|].
  apply (long_integer_raises ascii_isupper ascii_lower 4300
           (py "nonce") (10 ^ 4300) (VInt 0)).
  - lia.
  - rewrite digits_of_long_integer. lia.
Qed.

(** ** The script from top to bottom *)

Section RunFacts.

Variable isupper : pystr -> bool.
Variable lower : pystr -> pystr.
Variable max_digits : nat.
Variable printable : pystr -> bool.
Variables A B : dict.

Hypothesis accepts_all : forall s, printable s = true.
Hypothesis within_A : within_digit_limit max_digits A = true.
Hypothesis within_B : within_digit_limit max_digits B = true.

Lemma print_then {X : Type} (s : pystr) (k : unit -> prog X) (out : list pystr) :
  prog_bind (print printable s) k out = k tt (out ++ [s]).
Proof. unfold prog_bind, print. now rewrite accepts_all. Qed.

Lemma lift_then {X Y : Type} (m : exec X) (x : X) (k : X -> prog Y)
  (out : list pystr) :
  m = Done x -> prog_bind (lift m) k out = k x out.
Proof. intros ->. reflexivity. Qed.

Lemma lift_raise {X Y : Type} (m : exec X) (e : exception) (k : X -> prog Y)
  (out : list pystr) :
  m = Raise e -> prog_bind (lift m) k out = Raise e.
Proof. intros ->. reflexivity. Qed.

Lemma then_done {X Y : Type} (m : prog X) (k : X -> prog Y) (x : X)
  (out out' : list pystr) :
  m out = Done (x, out') -> prog_bind m k out = k x out'.
Proof. intros H. unfold prog_bind. now rewrite H. Qed.

Lemma for_prog_done {X : Type} (body : X -> prog unit) (xs : list X) :
  (forall x, In x xs -> forall out, exists out', body x out = Done (tt, out')) ->
  forall out, exists out', for_prog body xs out = Done (tt, out').
Proof.
  induction xs as [|x xs IH]; intros H out; simpl.
  - now exists out.
  - destruct (H x (or_introl eq_refl) out) as [out1 H1].
    rewrite (then_done _ _ _ _ _ H1).
    apply IH. intros y Hy. apply H. now right.
Qed.

Lemma print_done (s : pystr) (out : list pystr) :
  exists out', print printable s out = Done (tt, out').
Proof. unfold print. rewrite accepts_all. now eexists. Qed.

Lemma print_field_mapping_done (out : list pystr) :
  exists out',
    print_field_mapping isupper lower printable A B out
    = Done (second_to_camel isupper lower A, out').
Proof.
  unfold print_field_mapping. rewrite !print_then. cbv zeta.
  match goal with
  | |- context [prog_bind (for_prog ?body ?xs) _ ?o] =>
      destruct (for_prog_done body xs (fun x _ o' => print_done _ o') o)
        as [out1 H1]
  end.
  rewrite (then_done _ _ _ _ _ H1). now eexists.
Qed.

Lemma difference_values_in (r : difference) :
  In r (flat_map (difference_of isupper lower A B) (keys A)) ->
  exists fk sk fv sv k' k'',
    r = (fk, sk, fv, sv) /\ In (k', fv) A /\ In (k'', sv) B.
Proof.
  intros H. apply in_differences in H as (k & a & b & Hk & Hc & ->).
  destruct (key_cases isupper lower A B k Hk)
    as [[_ E]|(a' & b' & _ & Ha & Hb & E)]; rewrite E in Hc; [discriminate|].
  destruct (pystr_eqb (lower (py_str a')) (lower (py_str b')));
    [discriminate|]. injection Hc as <- <-.
  exists k, (camel_to_snake isupper lower k), a', b', k,
    (camel_to_snake isupper lower k).
  split; [reflexivity|]. split; now apply getitem_in.
Qed.

Lemma print_differences_done (out : list pystr) :
  exists out',
    print_differences isupper lower max_digits printable A B out
    = Done (flat_map (difference_of isupper lower A B) (keys A), out').
Proof.
  unfold print_differences. rewrite print_then.
  rewrite (lift_then _ _ _ _
             (differences_checked_ok isupper lower max_digits A B within_A within_B)).
  match goal with
  | |- context [prog_bind (for_prog ?body ?xs) _ ?o] =>
      assert (Hloop : exists out1, for_prog body xs o = Done (tt, out1))
  end.
  { apply for_prog_done. intros r Hr o.
    apply difference_values_in in Hr
      as (fk & sk & fv & sv & k' & k'' & -> & Hfv & Hsv).
    rewrite print_then.
    rewrite (lift_then _ _ _ _ (str_limited_within max_digits A k' fv within_A Hfv)).
    rewrite print_then.
    rewrite (lift_then _ _ _ _ (str_limited_within max_digits B k'' sv within_B Hsv)).
    apply print_done. }
  destruct Hloop as [out1 H1]. rewrite (then_done _ _ _ _ _ H1). now eexists.
Qed.

Lemma print_analysis_done (out : list pystr) :
  exists out', print_analysis printable out = Done (tt, out').
Proof. unfold print_analysis. rewrite !print_then. apply print_done. Qed.

Lemma print_same_fields_done (out : list pystr) :
  exists out',
    print_same_fields isupper lower max_digits printable A B out
    = Done (filter (is_matched isupper lower A B) (keys A), out').
Proof.
  unfold print_same_fields. rewrite print_then.
  rewrite (lift_then _ _ _ _
             (same_fields_checked_ok isupper lower max_digits A B within_A within_B)).
  match goal with
  | |- context [prog_bind (for_prog ?body ?xs) _ ?o] =>
      destruct (for_prog_done body xs (fun x _ o' => print_done x o') o)
        as [out1 H1]
  end.
  rewrite (then_done _ _ _ _ _ H1). now eexists.
Qed.

(** Lines 85-88 by the presence of the two fixed keys. *)
Lemma print_addresses_cases (out : list pystr) :
  (contains (py "currencyAddress") A = false ->
   print_addresses max_digits printable A B out
   = Raise (ExcKeyError (py "currencyAddress"))) /\
  (contains (py "currencyAddress") A = true ->
   contains (py "currency_address") B = false ->
   print_addresses max_digits printable A B out
   = Raise (ExcKeyError (py "currency_address"))) /\
  (contains (py "currencyAddress") A = true ->
   contains (py "currency_address") B = true ->
   exists out', print_addresses max_digits printable A B out = Done (tt, out')).
Proof.
  unfold print_addresses. rewrite print_then. split; [|split].
  - intros HA. now rewrite (lift_raise _ _ _ _ (subscript_absent A _ HA)).
  - intros HA HB. apply contains_in, getitem_of_key in HA as [a Ha].
    rewrite (lift_then _ _ _ _ (subscript_ok A _ _ Ha)).
    rewrite (lift_then _ _ _ _
               (str_limited_within max_digits A _ a within_A (getitem_in _ _ _ Ha))).
    rewrite print_then.
    now rewrite (lift_raise _ _ _ _ (subscript_absent B _ HB)).
  - intros HA HB. apply contains_in, getitem_of_key in HA as [a Ha].
    apply contains_in, getitem_of_key in HB as [b Hb].
    rewrite (lift_then _ _ _ _ (subscript_ok A _ _ Ha)).
    rewrite (lift_then _ _ _ _
               (str_limited_within max_digits A _ a within_A (getitem_in _ _ _ Ha))).
    rewrite print_then.
    rewrite (lift_then _ _ _ _ (subscript_ok B _ _ Hb)).
    rewrite (lift_then _ _ _ _
               (str_limited_within max_digits B _ b within_B (getitem_in _ _ _ Hb))).
    rewrite print_then. apply print_done.
Qed.

End RunFacts.

(** X7.  Suppose the standard output accepts every text and no integer
    value of the two dictionaries is longer than the limit of [str].  Then
    the script, run on the two dictionaries, raises exactly when the first
    lacks the key currencyAddress or the second lacks the key
    currency_address, with the [KeyError] of that key (the first dictionary
    is subscripted first); otherwise it runs to the end, and its two lists
    are those of the comparison loops. *)
Theorem script_raises_only_for_address_keys
  (isupper : pystr -> bool) (lower : pystr -> pystr) (max_digits : nat)
  (printable : pystr -> bool) (A B : dict) (out : list pystr)
  (Hprint : forall s, printable s = true)
  (HA : within_digit_limit max_digits A = true)
  (HB : within_digit_limit max_digits B = true) :
  (contains (py "currencyAddress") A = false ->
   script isupper lower max_digits printable A B out
   = Raise (ExcKeyError (py "currencyAddress"))) /\
  (contains (py "currencyAddress") A = true ->
   contains (py "currency_address") B = false ->
   script isupper lower max_digits printable A B out
   = Raise (ExcKeyError (py "currency_address"))) /\
  (contains (py "currencyAddress") A = true ->
   contains (py "currency_address") B = true ->
   exists r out',
     script isupper lower max_digits printable A B out = Done (r, out') /\
     differences isupper lower A B = Ok (report_differences r) /\
     same_fields isupper lower A B = Ok (report_same_fields r) /\
     report_second_to_camel r = second_to_camel isupper lower A).
Proof.
  destruct (print_field_mapping_done isupper lower printable A B Hprint out)
    as [out1 H1].
  destruct (print_differences_done isupper lower max_digits printable A B
              Hprint HA HB out1) as [out2 H2].
  destruct (print_addresses_cases max_digits printable A B Hprint HA HB out2)
    as (Hno_A & Hno_B & Hboth).
  unfold script.
  rewrite (then_done _ _ _ _ _ H1), (then_done _ _ _ _ _ H2).
  split; [|split].
  - intros E. unfold prog_bind at 1. now rewrite (Hno_A E).
  - intros EA EB. unfold prog_bind at 1. now rewrite (Hno_B EA EB).
  - intros EA EB. destruct (Hboth EA EB) as [out3 H3].
    rewrite (then_done _ _ _ _ _ H3).
    destruct (print_analysis_done printable Hprint out3) as [out4 H4].
    rewrite (then_done _ _ _ _ _ H4).
    destruct (print_same_fields_done isupper lower max_digits printable A B
                Hprint HA HB out4) as [out5 H5].
    rewrite (then_done _ _ _ _ _ H5).
    eexists. eexists. split; [reflexivity|]. cbn [report_differences
      report_same_fields report_second_to_camel].
    split; [apply differences_ok|]. split; [apply same_fields_ok|reflexivity].
Qed.

Lemma script_raises_only_for_address_keys_witness :
  within_digit_limit 4300 address_A = true /\
  within_digit_limit 4300 address_B = true /\
  contains (py "currencyAddress") address_A = true /\
  contains (py "currency_address") address_B = true /\
  exists r out',
    script ascii_isupper ascii_lower 4300 (fun _ => true) address_A address_B []
    = Done (r, out').
Proof.
  split; [reflexivity|]. split; [reflexivity|].
  split; [reflexivity|]. split; [reflexivity|].
  destruct (script_raises_only_for_address_keys
              ascii_isupper ascii_lower 4300 (fun _ => true)
              address_A address_B [] (fun _ => eq_refl) eq_refl eq_refl)
    as (_ & _ & Hboth).
  destruct (Hboth eq_refl eq_refl) as (r & out' & Hrun & _).
  exists r, out'. exact Hrun.
Defined.

(** The script as it stands, on its own two dictionaries: it runs to the
    end when the standard output accepts every text, and has then printed
    58 texts. *)
Example script_on_its_own_data :
  exists r out',
    script ascii_isupper ascii_lower 4300 (fun _ => true) first second []
    = Done (r, out') /\
    List.length out' = 58 /\
    List.length (report_differences r) = 5 /\
    List.length (report_same_fields r) = 17.
Proof.
  eexists. eexists. split; [vm_compute; reflexivity|].
  split; [reflexivity|]. split; reflexivity.
Qed.

(** Without the two preconditions the script can stop earlier and
    otherwise: on a key with a lone surrogate under a strict UTF-8 output
    (line 65), and on a long integer under currencyAddress, which line 86
    formats before line 87 looks for currency_address. *)
Example script_other_exceptions :
  script ascii_isupper ascii_lower 4300 utf8_strict
    [(py "key" ++ [55296%N], str "1")] [] []
  = Raise ExcUnicodeEncodeError /\
  script ascii_isupper ascii_lower 4300 (fun _ => true)
    [(py "currencyAddress", VInt (10 ^ 4300))] [] []
  = Raise ExcValueError.
Proof. split; vm_compute; reflexivity. Qed.
